(** * Hotel management system: the record store of [HMS.cpp]

    A shallow embedding of [HotelManager] (src/HMS.cpp): the [RoomData]
    records, the [rooms_map] keyed by room number, the booking, editing,
    checkout and food-ordering methods, and the raw binary persistence
    of [load_data] / [save_data].

    Conventions of the embedding.
    - [int] room numbers, menu choices and people counts are [Z]; the code
      only compares them, or multiplies them into a [long].
    - [long] is the 64-bit signed integer of the LP64 targets the program
      is written for (it calls [system("clear")]).  Its arithmetic is
      written out with two's-complement wrap-around ([wrap_long]); C++
      leaves signed overflow undefined, wrap-around is what those targets
      compute.
    - [std::string] is [string].
    - [std::unordered_map<int, RoomData>] is [gmap Z RoomData].
    - Every method is a function on the state of the object
      ([HotelManager]): the map and the text written to [std::cout] and
      to [std::cerr], each kept as a list of messages, oldest first.  A
      call that can kill the process ([load_data], whose raw read can
      leave an object that faults when it is copied or destroyed) ends in
      a [Run]: it returns, or the process is aborted.  What a method reads from
      [std::cin] is passed as arguments, already parsed by [operator>>]
      or [std::getline].  Banners, menus, prompts, [system("clear")] and
      the "Press Enter to continue" pauses carry no state and are left
      out. *)

From Stdlib Require Import ZArith Lia String Ascii List.
From Stdlib Require Import Strings.Byte.
From stdpp Require Import base option numbers list strings finite gmap fin_maps.

Local Open Scope Z_scope.

(** ** [long] arithmetic *)

Module Long.

Definition bits : Z := 64.
Definition modulus : Z := 2 ^ bits.
Definition min : Z := - 2 ^ (bits - 1).
Definition max : Z := 2 ^ (bits - 1) - 1.

Definition in_range (z : Z) : Prop := min <= z <= max.

(** The representative of [z] modulo [2^64] in [[min, max]]. *)
Definition wrap_long (z : Z) : Z := (z - min) mod modulus + min.

Definition add (a b : Z) : Z := wrap_long (a + b).
Definition mul (a b : Z) : Z := wrap_long (a * b).

End Long.

(** ** [struct RoomData] *)

Record RoomData : Type := mkRoomData {
  room_no : Z;
  name : string;
  address : string;
  phone : string;
  days : Z;
  cost : Z;
  rtype : string;
  food_bill : Z
}.

(** The default constructor: [room_no(0), days(0), cost(0), food_bill(0)],
    the strings empty. *)
Definition RoomData_default : RoomData :=
  mkRoomData 0 "" "" "" 0 0 "" 0.

Definition set_room_no (v : Z) (r : RoomData) : RoomData :=
  mkRoomData v (name r) (address r) (phone r) (days r) (cost r) (rtype r) (food_bill r).
Definition set_name (v : string) (r : RoomData) : RoomData :=
  mkRoomData (room_no r) v (address r) (phone r) (days r) (cost r) (rtype r) (food_bill r).
Definition set_address (v : string) (r : RoomData) : RoomData :=
  mkRoomData (room_no r) (name r) v (phone r) (days r) (cost r) (rtype r) (food_bill r).
Definition set_phone (v : string) (r : RoomData) : RoomData :=
  mkRoomData (room_no r) (name r) (address r) v (days r) (cost r) (rtype r) (food_bill r).
Definition set_days (v : Z) (r : RoomData) : RoomData :=
  mkRoomData (room_no r) (name r) (address r) (phone r) v (cost r) (rtype r) (food_bill r).
Definition set_cost (v : Z) (r : RoomData) : RoomData :=
  mkRoomData (room_no r) (name r) (address r) (phone r) (days r) v (rtype r) (food_bill r).
Definition set_rtype (v : string) (r : RoomData) : RoomData :=
  mkRoomData (room_no r) (name r) (address r) (phone r) (days r) (cost r) v (food_bill r).
Definition set_food_bill (v : Z) (r : RoomData) : RoomData :=
  mkRoomData (room_no r) (name r) (address r) (phone r) (days r) (cost r) (rtype r) v.

#[global] Instance RoomData_eq_dec : EqDecision RoomData.
Proof. solve_decision. Defined.

(** ** What the methods write to [std::cout] and [std::cerr] *)

Inductive Msg : Type :=
  | NoRecordFile            (* No existing record file found. Starting with empty data. *)
  | DataLoaded              (* Data loaded successfully from Record.DAT *)
  | SaveError               (* Error: Could not open file for saving data. *)
  | DataSaved               (* Data saved successfully to Record.DAT *)
  | AlreadyBooked (r_no : Z)          (* Sorry, Room r_no is already booked. *)
  | DoesNotExist (r_no : Z)           (* Sorry, Room r_no does not exist (valid range 1-100). *)
  | Booked (r_no : Z) (n : string)    (* Room r_no has been booked for n. *)
  | CustomerDetails (r : RoomData) (grand_total : Z)  (* display_room *)
  | VacantOrMissing (r_no : Z)        (* Room r_no is Vacant or does not exist. *)
  | NoRooms                           (* No rooms currently allotted. *)
  | RoomRow (r : RoomData) (total : Z)                (* a row of display_all_rooms *)
  | WrongChoice                       (* Wrong choice. Please try again. *)
  | RoomVacant                        (* Sorry, Room is vacant. *)
  | NameModified                      (* Customer Name has been modified. *)
  | AddressModified                   (* Customer Address has been modified. *)
  | PhoneModified                     (* Customer Phone Number has been modified. *)
  | InfoModified                      (* Customer information is modified. *)
  | CheckoutName (n : string)         (* Name: n *)
  | CheckoutAddress (a : string)      (* Address: a *)
  | CheckoutPhone (p : string)        (* Phone Number: p *)
  | TotalBill (amount : Z)            (* Your total bill is: Rs. amount *)
  | CheckedOut (r_no : Z)             (* Customer Checked Out. Room r_no is now vacant. *)
  | CheckoutCancelled                 (* Checkout cancelled. *)
  | FoodAdded (amount : Z) (meal : string)  (* Rs. amount added to the bill for meal. *)
  | InvalidMeal                       (* Invalid choice for meal. *)
  | Goodbye.                          (* Exiting Hotel Management System. Goodbye! *)

(** ** [class HotelManager] *)

Record HotelManager : Type := mkHotel {
  rooms_map : gmap Z RoomData;
  cout : list Msg;
  cerr : list Msg
}.

(** A manager with no room booked and nothing printed: the object before
    its constructor calls [load_data]. *)
Definition HotelManager_new : HotelManager := mkHotel ∅ [] [].

(** [std::cout << m] *)
Definition print (m : Msg) (h : HotelManager) : HotelManager :=
  mkHotel (rooms_map h) (cout h ++ [m]) (cerr h).

(** [std::cerr << m] *)
Definition print_err (m : Msg) (h : HotelManager) : HotelManager :=
  mkHotel (rooms_map h) (cout h) (cerr h ++ [m]).

Definition set_rooms (rm : gmap Z RoomData) (h : HotelManager) : HotelManager :=
  mkHotel rm (cout h) (cerr h).

(** How a call that can kill the process ends: it returns with the state
    of the object, or the process is aborted (an exception nobody
    catches, or a fault); of an aborted process only what it had written
    to [std::cout] and [std::cerr] is left. *)
Inductive Run : Type :=
  | Returns (h : HotelManager)
  | Aborted (out err : list Msg).

(** [returned r P]: if the call returned, the state it returned with
    satisfies [P]. *)
Definition returned (r : Run) (P : HotelManager -> Prop) : Prop :=
  match r with
  | Returns h => P h
  | Aborted _ _ => True
  end.

Definition cerr_of (r : Run) : list Msg :=
  match r with
  | Returns h => cerr h
  | Aborted _ err => err
  end.

(** [check_room_status]: 0 vacant, 1 booked, 2 invalid room number. *)
Definition check_room_status (r_no : Z) (h : HotelManager) : Z :=
  if (r_no <? 1) || (r_no >? 100) then 2
  else match rooms_map h !! r_no with
       | Some _ => 1
       | None => 0
       end.

(** The pricing chain of [add_room] (lines 202-211): the type and the
    cost follow the band of the room number; outside the three bands no
    branch runs and both fields keep their value. *)
Definition price_new_room (new_room : RoomData) : RoomData :=
  if (room_no new_room >=? 1) && (room_no new_room <=? 50) then
    set_cost (Long.mul (days new_room) 10000) (set_rtype "Deluxe" new_room)
  else if (room_no new_room >=? 51) && (room_no new_room <=? 80) then
    set_cost (Long.mul (days new_room) 12500) (set_rtype "Executive" new_room)
  else if (room_no new_room >=? 81) && (room_no new_room <=? 100) then
    set_cost (Long.mul (days new_room) 15000) (set_rtype "Presidential" new_room)
  else new_room.

(** [add_room]: [r_no] is read first; the guest's fields are read only
    when the room is vacant. *)
Definition add_room (r_no : Z) (n a p : string) (d : Z) (h : HotelManager)
  : HotelManager :=
  let status := check_room_status r_no h in
  if status =? 1 then print (AlreadyBooked r_no) h
  else if status =? 2 then print (DoesNotExist r_no) h
  else
    let new_room := set_room_no r_no RoomData_default in
    let new_room := set_name n new_room in
    let new_room := set_address a new_room in
    let new_room := set_phone p new_room in
    let new_room := set_days d new_room in
    let new_room := price_new_room new_room in
    let new_room := set_food_bill 0 new_room in
    print (Booked (room_no new_room) (name new_room))
      (set_rooms (<[room_no new_room := new_room]> (rooms_map h)) h).

(** [display_room]: prints the record and the grand total [cost + food_bill]. *)
Definition display_room (r_no : Z) (h : HotelManager) : HotelManager :=
  match rooms_map h !! r_no with
  | Some room => print (CustomerDetails room (Long.add (cost room) (food_bill room))) h
  | None => print (VacantOrMissing r_no) h
  end.

(** [display_all_rooms]: one row per record.  The order in which an
    [unordered_map] is walked is unspecified; the rows are listed here in
    the order of [map_to_list]. *)
Definition display_all_rooms (h : HotelManager) : HotelManager :=
  if decide (rooms_map h = ∅) then print NoRooms h
  else
    mkHotel (rooms_map h)
      (cout h ++ map (fun kv : Z * RoomData =>
                        RoomRow kv.2 (Long.add (cost kv.2) (food_bill kv.2)))
                     (map_to_list (rooms_map h)))
      (cerr h).

(** [modify_name], [modify_address], [modify_phone]: [std::getline] into
    the field of the record found ([it->second]). *)
Definition modify_name (r_no : Z) (line : string) (h : HotelManager) : HotelManager :=
  match rooms_map h !! r_no with
  | Some room =>
      print NameModified (set_rooms (<[r_no := set_name line room]> (rooms_map h)) h)
  | None => print RoomVacant h
  end.

Definition modify_address (r_no : Z) (line : string) (h : HotelManager) : HotelManager :=
  match rooms_map h !! r_no with
  | Some room =>
      print AddressModified (set_rooms (<[r_no := set_address line room]> (rooms_map h)) h)
  | None => print RoomVacant h
  end.

Definition modify_phone (r_no : Z) (line : string) (h : HotelManager) : HotelManager :=
  match rooms_map h !! r_no with
  | Some room =>
      print PhoneModified (set_rooms (<[r_no := set_phone line room]> (rooms_map h)) h)
  | None => print RoomVacant h
  end.

(** The recalculation chain of [modify_days] (lines 420-426): only the
    cost is assigned, from the band of the record's own room number. *)
Definition recalculate_cost (room : RoomData) : RoomData :=
  if (room_no room >=? 1) && (room_no room <=? 50) then
    set_cost (Long.mul (days room) 10000) room
  else if (room_no room >=? 51) && (room_no room <=? 80) then
    set_cost (Long.mul (days room) 12500) room
  else if (room_no room >=? 81) && (room_no room <=? 100) then
    set_cost (Long.mul (days room) 15000) room
  else room.

Definition modify_days (r_no : Z) (d : Z) (h : HotelManager) : HotelManager :=
  match rooms_map h !! r_no with
  | Some room =>
      let room := set_days d room in
      let room := recalculate_cost room in
      print InfoModified (set_rooms (<[r_no := room]> (rooms_map h)) h)
  | None => print RoomVacant h
  end.

(** [modify_customer_info]: the field choice [ch] and the room number are
    read first; [line] is what [std::getline] reads for choices 1-3 and
    [d] what [std::cin >> days] reads for choice 4. *)
Definition modify_customer_info (ch r_no : Z) (line : string) (d : Z)
    (h : HotelManager) : HotelManager :=
  match rooms_map h !! r_no with
  | None => print (VacantOrMissing r_no) h
  | Some _ =>
      if ch =? 1 then modify_name r_no line h
      else if ch =? 2 then modify_address r_no line h
      else if ch =? 3 then modify_phone r_no line h
      else if ch =? 4 then modify_days r_no d h
      else print WrongChoice h
  end.

(** [delete_customer_record]: the bill is shown, then [confirm_char] is
    read; only ['y'] and ['Y'] erase the record. *)
Definition delete_customer_record (r_no : Z) (confirm_char : ascii)
    (h : HotelManager) : HotelManager :=
  match rooms_map h !! r_no with
  | Some room =>
      let h := print (CheckoutName (name room)) h in
      let h := print (CheckoutAddress (address room)) h in
      let h := print (CheckoutPhone (phone room)) h in
      let h := print (TotalBill (Long.add (cost room) (food_bill room))) h in
      if Ascii.eqb confirm_char "y" || Ascii.eqb confirm_char "Y" then
        print (CheckedOut r_no) (set_rooms (delete r_no (rooms_map h)) h)
      else print CheckoutCancelled h
  | None => print (VacantOrMissing r_no) h
  end.

(** [calculateBreakfastCost], [calculateLunchCost], [calculateDinnerCost]:
    [long added_cost = cost_per_person * num_people; room.food_bill += added_cost]. *)
Definition calculateBreakfastCost (room : RoomData) (num_people : Z) : RoomData * Msg :=
  let cost_per_person := 500 in
  let added_cost := Long.mul cost_per_person num_people in
  (set_food_bill (Long.add (food_bill room) added_cost) room,
   FoodAdded added_cost "breakfast").

Definition calculateLunchCost (room : RoomData) (num_people : Z) : RoomData * Msg :=
  let cost_per_person := 1000 in
  let added_cost := Long.mul cost_per_person num_people in
  (set_food_bill (Long.add (food_bill room) added_cost) room,
   FoodAdded added_cost "lunch").

Definition calculateDinnerCost (room : RoomData) (num_people : Z) : RoomData * Msg :=
  let cost_per_person := 1200 in
  let added_cost := Long.mul cost_per_person num_people in
  (set_food_bill (Long.add (food_bill room) added_cost) room,
   FoodAdded added_cost "dinner").

(** [order_food]: the meal choice is read before the room number, the
    number of people only when the room is found. *)
Definition order_food (meal_choice r_no num_people : Z) (h : HotelManager)
  : HotelManager :=
  match rooms_map h !! r_no with
  | None => print (VacantOrMissing r_no) h
  | Some room =>
      let charge (rm : RoomData * Msg) :=
        print rm.2 (set_rooms (<[r_no := rm.1]> (rooms_map h)) h) in
      if meal_choice =? 1 then charge (calculateBreakfastCost room num_people)
      else if meal_choice =? 2 then charge (calculateLunchCost room num_people)
      else if meal_choice =? 3 then charge (calculateDinnerCost room num_people)
      else print InvalidMeal h
  end.

(** ** The menus *)

(** What the operator does at the main menu, with everything typed for it.
    Choice 4 opens the edit menu ([edit_customer_details]), whose own
    choice selects [modify_customer_info] (1) or
    [delete_customer_record] (2). *)
Inductive Action : Type :=
  | BookARoom (r_no : Z) (n a p : string) (d : Z)
  | CustomerInformation (r_no : Z)
  | RoomsAllotted
  | ModifyInformation (ch r_no : Z) (line : string) (d : Z)
  | CheckOut (r_no : Z) (confirm_char : ascii)
  | EditWrongChoice
  | OrderFood (meal_choice r_no num_people : Z)
  | MenuWrongChoice.

Definition run_action (a : Action) (h : HotelManager) : HotelManager :=
  match a with
  | BookARoom r_no n a p d => add_room r_no n a p d h
  | CustomerInformation r_no => display_room r_no h
  | RoomsAllotted => display_all_rooms h
  | ModifyInformation ch r_no line d => modify_customer_info ch r_no line d h
  | CheckOut r_no c => delete_customer_record r_no c h
  | EditWrongChoice => print WrongChoice h
  | OrderFood m r_no n => order_food m r_no n h
  | MenuWrongChoice => print WrongChoice h
  end.

(** [main_menu]: the actions chosen, in order, then choice 6 (exit). *)
Definition main_menu (actions : list Action) (h : HotelManager) : HotelManager :=
  print Goodbye (fold_left (fun h a => run_action a h) actions h).

(** ** Persistence: [load_data] and [save_data]

    Both methods move the object representation of a [RoomData] as it
    stands in memory: [fout.write(reinterpret_cast<const char*>(&room),
    sizeof(RoomData))] and [fin.read(reinterpret_cast<char*>(&temp_room),
    sizeof(RoomData))].  The size and the representation are fixed by the
    compiler and its library, not by the source, and the representation
    of a [std::string] holds addresses of the run it lives in.  They are
    parameters here:
    - [sizeof_RoomData];
    - [heap], the memory of a run that saves, and [object_bytes mem k
      room], the image that [write] copies out of the map node of key [k]
      holding [room] in the memory [mem];
    - in the run that loads: [temp_room_image], the bytes of [RoomData
      temp_room] as constructed (line 90); [object_of_bytes image], the
      record that the copy [rooms_map[temp_room.room_no] = temp_room]
      (line 99) takes out of [temp_room] when it holds [image], or [None]
      when that copy kills the process (a length no string can have, a
      pointer that cannot be read); and [destructor_returns bytes],
      whether destroying [temp_room] at the end of [load_data] returns
      when it holds [bytes].
    Nothing is assumed of the parameters but what a theorem states.
    The file [Record.DAT] is [None] when it cannot be opened for reading
    and [Some] of its bytes otherwise. *)

Section Persistence.

Variable heap : Type.
Variable sizeof_RoomData : nat.
Variable object_bytes : heap -> Z -> RoomData -> list byte.
Variable temp_room_image : list byte.
Variable object_of_bytes : list byte -> option RoomData.
Variable destructor_returns : list byte -> bool.

(** [fin.read(buf, sizeof(RoomData))] on a stream [s] into [temp_room]:
    whether it succeeds, the bytes [temp_room] holds afterwards, and the
    rest of the stream.  It succeeds when that many bytes are left; when
    fewer are left it stores those over the first bytes of [temp_room]
    and fails. *)
Definition fin_read (s temp_room : list byte) : bool * list byte * list byte :=
  if (length s <? sizeof_RoomData)%nat
  then (false, s ++ drop (length s) temp_room, [])
  else (true, take sizeof_RoomData s, drop sizeof_RoomData s).

(** How the read loop ends: the stream is exhausted, with the map and the
    bytes left in [temp_room]; or the copy of a record killed the
    process. *)
Inductive Loaded : Type :=
  | ReadAll (rm : gmap Z RoomData) (temp_room : list byte)
  | Faulted.

(** The [while (fin.read(...)) rooms_map[temp_room.room_no] = temp_room;]
    loop.  [fuel] bounds the iterations; [length s] is enough
    ([read_records_images]). *)
Fixpoint read_records (fuel : nat) (s temp_room : list byte) (rm : gmap Z RoomData)
  : Loaded :=
  match fin_read s temp_room with
  | (false, temp_room', _) => ReadAll rm temp_room'
  | (true, image, rest) =>
      match fuel with
      | O => ReadAll rm temp_room
      | S fuel' =>
          match object_of_bytes image with
          | None => Faulted
          | Some room => read_records fuel' rest image (<[room_no room := room]> rm)
          end
      end
  end.

(** The records of a list of images, inserted in stream order. *)
Definition insert_images (images : list (list byte)) (rm : gmap Z RoomData)
  : gmap Z RoomData :=
  fold_left (fun rm image =>
               match object_of_bytes image with
               | Some room => <[room_no room := room]> rm
               | None => rm
               end)
            images rm.

(** The bytes [temp_room] holds after the whole [images] and then the
    partial [tail] were read into it. *)
Definition temp_room_after (images : list (list byte)) (tail : list byte) : list byte :=
  tail ++ drop (length tail) (List.last images temp_room_image).

(** [load_data]: without a file nothing is read.  With one, the loop
    runs, the success message is printed (line 102) and [temp_room] is
    destroyed on the way out. *)
Definition load_data (file : option (list byte)) (h : HotelManager) : Run :=
  match file with
  | None => Returns (print NoRecordFile h)
  | Some s =>
      match read_records (length s) s temp_room_image (rooms_map h) with
      | Faulted => Aborted (cout h) (cerr h)
      | ReadAll rm temp_room =>
          let h' := print DataLoaded (set_rooms rm h) in
          if destructor_returns temp_room then Returns h'
          else Aborted (cout h') (cerr h')
      end
  end.

(** [save_data]: the file is truncated and the image of every record is
    written, in the order the map is walked.  [mem] is the memory of the
    run, [writable] says whether the file opens for writing; the result
    pairs the object with the file left on disk.  The error goes to
    [std::cerr]. *)
Definition save_data (mem : heap) (writable : bool) (file : option (list byte))
    (h : HotelManager) : HotelManager * option (list byte) :=
  if writable then
    (print DataSaved h,
     Some (concat (map (fun kv : Z * RoomData => object_bytes mem kv.1 kv.2)
                       (map_to_list (rooms_map h)))))
  else (print_err SaveError h, file).

(** [main]: the constructor loads, the menu runs, the destructor saves.
    A load that kills the process leaves the file as it was. *)
Definition main (mem : heap) (file : option (list byte)) (writable : bool)
    (actions : list Action) : Run * option (list byte) :=
  match load_data file HotelManager_new with
  | Aborted out err => (Aborted out err, file)
  | Returns hotel_system =>
      let hotel_system := main_menu actions hotel_system in
      let saved := save_data mem writable file hotel_system in
      (Returns saved.1, saved.2)
  end.

End Persistence.

Arguments save_data {heap} object_bytes mem writable file h.
Arguments main {heap} sizeof_RoomData object_bytes temp_room_image object_of_bytes
  destructor_returns mem file writable actions.

(** ** The vocabulary of the specification, read off the code *)

(** The band of a room number: its type and per-day rate, as the pricing
    chains of [add_room] and [modify_days] assign them; [None] where no
    branch of the chain runs. *)
Definition room_type_and_rate (r_no : Z) : option (string * Z) :=
  if (r_no >=? 1) && (r_no <=? 50) then Some ("Deluxe"%string, 10000)
  else if (r_no >=? 51) && (r_no <=? 80) then Some ("Executive"%string, 12500)
  else if (r_no >=? 81) && (r_no <=? 100) then Some ("Presidential"%string, 15000)
  else None.

Definition rate (r_no : Z) : Z :=
  match room_type_and_rate r_no with
  | Some (_, per_day) => per_day
  | None => 0
  end.

Inductive Meal : Type := Breakfast | Lunch | Dinner.

(** The menu number of a meal in [order_food]. *)
Definition meal_choice_of (m : Meal) : Z :=
  match m with Breakfast => 1 | Lunch => 2 | Dinner => 3 end.

(** [cost_per_person] of the three [calculate...Cost] helpers. *)
Definition meal_rate (m : Meal) : Z :=
  match m with Breakfast => 500 | Lunch => 1000 | Dinner => 1200 end.

(** A run of meal orders for one room, each a meal and a people count. *)
Definition order_meals (r_no : Z) (orders : list (Meal * Z)) (h : HotelManager)
  : HotelManager :=
  fold_left (fun h o => order_food (meal_choice_of o.1) r_no o.2 h) orders h.

(** The exact sum of the charges of a run of orders. *)
Definition meal_total (orders : list (Meal * Z)) : Z :=
  fold_right (fun o acc => o.2 * meal_rate o.1 + acc) 0 orders.

(** Every record sits under its own room number: both places that insert
    ([add_room], [load_data]) write [rooms_map[room.room_no] = room]. *)
Definition keyed_by_room_no (rm : gmap Z RoomData) : Prop :=
  forall k room, rm !! k = Some room -> room_no room = k.

(** The room is booked: [check_room_status] answers 1. *)
Definition is_booked (r_no : Z) (h : HotelManager) : Prop :=
  check_room_status r_no h = 1.

Definition is_vacant (r_no : Z) (h : HotelManager) : Prop :=
  check_room_status r_no h = 0.

(** ** Counting record images

    [save_data] writes exactly [sizeof(RoomData)] bytes for a record,
    whatever the length of its strings.  The definitions below count
    images and build guests with names of a chosen length. *)

(** The number a byte string spells in base 256, first byte lowest. *)
Fixpoint image_number (image : list byte) : nat :=
  match image with
  | [] => 0%nat
  | b :: rest => (Byte.to_nat b + 256 * image_number rest)%nat
  end.

(** The [n] lowest base-256 digits of [i], lowest first. *)
Fixpoint digits (n i : nat) : list byte :=
  match n with
  | O => []
  | S n' => default x00 (Byte.of_nat (i mod 256)) :: digits n' (i / 256)
  end.

(** The guest of room 1 whose name is the given bytes, every other field
    as the default constructor leaves it. *)
Definition guest_named (name_bytes : list byte) : RoomData :=
  set_name (string_of_list_byte name_bytes) (set_room_no 1 RoomData_default).

(** A manager whose map holds the one record [room]. *)
Definition one_guest (room : RoomData) : HotelManager :=
  mkHotel {[room_no room := room]} [] [].

(** ** An example layout

    The layout of one common target, for the examples: a little-endian
    LP64 machine whose [std::string] is 32 bytes (a pointer to the
    characters, the length, and 16 bytes that hold the characters of a
    string of at most 15, or else the capacity).  [RoomData] is then 160
    bytes: [room_no] at 0, [name] at 8, [address] at 40, [phone] at 72,
    [days] at 104, [cost] at 112, [rtype] at 120, [food_bill] at 152.
    Addresses are made up. *)

Definition byte_of_Z (z : Z) : byte := default x00 (Byte.of_N (Z.to_N z)).

(** The [n] low bytes of [z], lowest first. *)
Fixpoint le_bytes (n : nat) (z : Z) : list byte :=
  match n with
  | O => []
  | S n' => byte_of_Z (z mod 256) :: le_bytes n' (z / 256)
  end.

(** The unsigned number of little-endian bytes. *)
Fixpoint le_word (bs : list byte) : Z :=
  match bs with
  | [] => 0
  | b :: bs' => Z.of_N (Byte.to_N b) + 256 * le_word bs'
  end.

(** The two's-complement number of little-endian bytes of [bits] bits. *)
Definition le_int (bits : Z) (bs : list byte) : Z :=
  let u := le_word bs in
  if u <? 2 ^ (bits - 1) then u else u - 2 ^ bits.

Definition field (off len : nat) (image : list byte) : list byte :=
  take len (drop off image).

Definition example_sizeof : nat := 160.

(** The bytes of a string object at address [addr]: a short string points
    at its own 16 bytes, a long one at characters elsewhere. *)
Definition example_string_image (addr : Z) (s : string) : list byte :=
  let chars := list_byte_of_string s in
  if (length chars <=? 15)%nat then
    le_bytes 8 (addr + 16) ++ le_bytes 8 (Z.of_nat (length chars))
      ++ take 16 (chars ++ repeat x00 16)
  else
    le_bytes 8 (addr + 4096) ++ le_bytes 8 (Z.of_nat (length chars))
      ++ le_bytes 8 (Z.of_nat (length chars)) ++ repeat x00 8.

(** The bytes of a [RoomData] that lives at address [addr]. *)
Definition example_image_at (addr : Z) (room : RoomData) : list byte :=
  le_bytes 4 (room_no room) ++ repeat x00 4
    ++ example_string_image (addr + 8) (name room)
    ++ example_string_image (addr + 40) (address room)
    ++ example_string_image (addr + 72) (phone room)
    ++ le_bytes 8 (days room) ++ le_bytes 8 (cost room)
    ++ example_string_image (addr + 120) (rtype room)
    ++ le_bytes 8 (food_bill room).

(** The memory of a saving run is the address of its first map node; the
    node of key [k] lives [256 * k] bytes further. *)
Definition example_object_bytes (base : Z) (k : Z) (room : RoomData) : list byte :=
  example_image_at (base + 256 * k) room.

Definition example_temp_room_address : Z := 140737488347136.

Definition example_temp_room_image : list byte :=
  example_image_at example_temp_room_address RoomData_default.

(** The string the copy takes out of the string object at [off]: a
    length of 0 copies nothing and gives the empty string; any other
    length is read through a pointer written by another run, which is
    taken to kill the process. *)
Definition example_string (image : list byte) (off : nat) : option string :=
  if le_word (field (off + 8) 8 image) =? 0 then Some EmptyString else None.

Definition example_object_of_bytes (image : list byte) : option RoomData :=
  match example_string image 8, example_string image 40,
        example_string image 72, example_string image 120 with
  | Some n, Some a, Some p, Some t =>
      Some (mkRoomData (le_int 32 (field 0 4 image)) n a p
              (le_int 64 (field 104 8 image)) (le_int 64 (field 112 8 image))
              t (le_int 64 (field 152 8 image)))
  | _, _, _, _ => None
  end.

(** Destroying a string frees what its pointer points at unless that is
    its own 16 bytes; freeing a null pointer does nothing, freeing any
    other pointer written by another run is taken to kill the process. *)
Definition example_string_destructible (bytes : list byte) (off : nat) : bool :=
  let p := le_word (field off 8 bytes) in
  (p =? 0) || (p =? example_temp_room_address + Z.of_nat off + 16).

Definition example_destructor_returns (bytes : list byte) : bool :=
  example_string_destructible bytes 8 && example_string_destructible bytes 40
  && example_string_destructible bytes 72 && example_string_destructible bytes 120.

(** An image with the four numbers given and four null strings of
    length 0. *)
Definition example_plain_image (r_no d c fb : Z) : list byte :=
  le_bytes 4 r_no ++ repeat x00 100 ++ le_bytes 8 d ++ le_bytes 8 c
    ++ repeat x00 32 ++ le_bytes 8 fb.

(** ** Charges and checkouts among the actions of a run *)

(** The actions chosen at the menus, run in order. *)
Definition run_actions (actions : list Action) (h : HotelManager) : HotelManager :=
  fold_left (fun h a => run_action a h) actions h.

(** [cost_per_person] of the helper the switch of [order_food] calls for
    a meal choice; no helper, no charge. *)
Definition meal_rate_of_choice (meal_choice : Z) : Z :=
  if meal_choice =? 1 then 500
  else if meal_choice =? 2 then 1000
  else if meal_choice =? 3 then 1200
  else 0.

(** What an action charges to the food bill of room [r_no]. *)
Definition charge_for (r_no : Z) (a : Action) : Z :=
  match a with
  | OrderFood meal_choice r num_people =>
      if r =? r_no then num_people * meal_rate_of_choice meal_choice else 0
  | _ => 0
  end.

Definition charges_for (r_no : Z) (actions : list Action) : Z :=
  fold_right (fun a acc => charge_for r_no a + acc) 0 actions.

(** The action is a checkout of room [r_no] answered ['y'] or ['Y']. *)
Definition checks_out (r_no : Z) (a : Action) : bool :=
  match a with
  | CheckOut r c => (r =? r_no) && (Ascii.eqb c "y" || Ascii.eqb c "Y")
  | _ => false
  end.

(** The action is no food order for room [r_no] with a negative number
    of people. *)
Definition people_not_negative (r_no : Z) (a : Action) : Prop :=
  match a with
  | OrderFood _ r num_people => r = r_no -> 0 <= num_people
  | _ => True
  end.

(** The food orders of a list of meals for room [r_no]. *)
Definition meal_orders (r_no : Z) (orders : list (Meal * Z)) : list Action :=
  map (fun o : Meal * Z => OrderFood (meal_choice_of o.1) r_no o.2) orders.

(** Creating a booking or changing its length of stay: the two events
    after which the cost of a stay is assigned.  [stay_set r_no d h h']
    says that [h'] is [h] after room [r_no] was booked for [d] days or had
    its stay changed to [d] days. *)
Inductive stay_set (r_no d : Z) (h : HotelManager) : HotelManager -> Prop :=
  | stay_created (n a p : string) :
      is_vacant r_no h -> stay_set r_no d h (add_room r_no n a p d h)
  | stay_updated :
      is_booked r_no h -> stay_set r_no d h (modify_days r_no d h).

(** Editing one of the three text fields of the record of [r_no]. *)
Inductive text_edited (r_no : Z) (line : string) (h : HotelManager)
  : HotelManager -> Prop :=
  | name_edited : text_edited r_no line h (modify_name r_no line h)
  | address_edited : text_edited r_no line h (modify_address r_no line h)
  | phone_edited : text_edited r_no line h (modify_phone r_no line h).

(** ** Invariants of a run that starts without a file *)

(** A record as [add_room] prices it and the other methods keep it: a
    valid room number, the room type of its band, the cost of its days at
    the rate of the band, and a food bill that is a [long]. *)
Definition well_priced (room : RoomData) : Prop :=
  1 <= room_no room <= 100
  /\ room_type_and_rate (room_no room) = Some (rtype room, rate (room_no room))
  /\ cost room = Long.mul (days room) (rate (room_no room))
  /\ Long.in_range (food_bill room).

Definition store_ok (rm : gmap Z RoomData) : Prop :=
  forall k room, rm !! k = Some room -> room_no room = k /\ well_priced room.

(** The room numbers the hotel has. *)
Definition hotel_rooms : gset Z := list_to_set (seqZ 1 100).

(** [int] as [std::cin >> num_people] can deliver it. *)
Definition int_range (z : Z) : Prop := - 2 ^ 31 <= z <= 2 ^ 31 - 1.

(** The word each [calculate...Cost] helper prints for its meal. *)
Definition meal_word (m : Meal) : string :=
  match m with Breakfast => "breakfast" | Lunch => "lunch" | Dinner => "dinner" end.

(** * Properties *)

(** ** [long] arithmetic *)

Ltac long_consts :=
  unfold Long.in_range, Long.add, Long.mul, Long.wrap_long,
         Long.min, Long.max, Long.modulus, Long.bits in *;
  change (2 ^ (64 - 1)) with 9223372036854775808 in *;
  change (2 ^ 64) with 18446744073709551616 in *.

Lemma wrap_long_in_range (z : Z) : Long.in_range (Long.wrap_long z).
Proof.
  long_consts.
  match goal with
  | |- context [?a mod ?m] => pose proof (Z.mod_pos_bound a m)
  end.
  lia.
Qed.

Lemma wrap_long_small (z : Z) : Long.in_range z -> Long.wrap_long z = z.
Proof.
  long_consts. intros Hz. rewrite Z.mod_small; lia.
Qed.

Lemma wrap_long_add_l (a b : Z) :
  Long.wrap_long (Long.wrap_long a + b) = Long.wrap_long (a + b).
Proof.
  unfold Long.wrap_long. f_equal.
  set (m := Long.min). set (M := Long.modulus).
  replace ((a - m) mod M + m + b - m) with ((a - m) mod M + b) by lia.
  replace (a + b - m) with ((a - m) + b) by lia.
  apply Zplus_mod_idemp_l.
Qed.

Lemma wrap_long_add_r (a b : Z) :
  Long.wrap_long (a + Long.wrap_long b) = Long.wrap_long (a + b).
Proof.
  rewrite (Z.add_comm a), wrap_long_add_l. f_equal. lia.
Qed.

Lemma long_mul_exact (a b : Z) : Long.in_range (a * b) -> Long.mul a b = a * b.
Proof. apply wrap_long_small. Qed.

Lemma long_add_exact (a b : Z) : Long.in_range (a + b) -> Long.add a b = a + b.
Proof. apply wrap_long_small. Qed.

(** ** Room status and the bands *)

Ltac zbool :=
  repeat match goal with
         | |- context [?a <? ?b] => destruct (Z.ltb_spec a b)
         | |- context [?a <=? ?b] => destruct (Z.leb_spec a b)
         | |- context [?a >? ?b] => rewrite (Z.gtb_ltb a b)
         | |- context [?a >=? ?b] => rewrite (Z.geb_leb a b)
         | |- context [?a =? ?b] => destruct (Z.eqb_spec a b)
         end; simpl.

Lemma check_room_status_cases (r_no : Z) (h : HotelManager) :
  (check_room_status r_no h = 2 /\ (r_no < 1 \/ 100 < r_no))
  \/ (check_room_status r_no h = 1 /\ 1 <= r_no <= 100 /\ is_Some (rooms_map h !! r_no))
  \/ (check_room_status r_no h = 0 /\ 1 <= r_no <= 100 /\ rooms_map h !! r_no = None).
Proof.
  unfold check_room_status. zbool; try (left; split; [done | lia]).
  destruct (rooms_map h !! r_no) eqn:E.
  - right; left. repeat split; eauto; lia.
  - right; right. repeat split; eauto; lia.
Qed.

Lemma is_vacant_inv (r_no : Z) (h : HotelManager) :
  is_vacant r_no h -> 1 <= r_no <= 100 /\ rooms_map h !! r_no = None.
Proof.
  unfold is_vacant. intros E.
  destruct (check_room_status_cases r_no h) as [[? _]|[[? _]|[_ ?]]]; [lia | lia | done].
Qed.

Lemma is_booked_inv (r_no : Z) (h : HotelManager) :
  is_booked r_no h -> 1 <= r_no <= 100 /\ is_Some (rooms_map h !! r_no).
Proof.
  unfold is_booked. intros E.
  destruct (check_room_status_cases r_no h) as [[? _]|[[_ ?]|[? _]]]; [lia | done | lia].
Qed.

Lemma room_type_and_rate_valid (r_no : Z) :
  1 <= r_no <= 100 ->
  (1 <= r_no <= 50 /\ room_type_and_rate r_no = Some ("Deluxe"%string, 10000))
  \/ (51 <= r_no <= 80 /\ room_type_and_rate r_no = Some ("Executive"%string, 12500))
  \/ (81 <= r_no <= 100 /\ room_type_and_rate r_no = Some ("Presidential"%string, 15000)).
Proof.
  intros Hr. unfold room_type_and_rate. zbool; try lia.
  - left; split; [lia | done].
  - right; left; split; [lia | done].
  - right; right; split; [lia | done].
Qed.

Lemma price_new_room_spec (room : RoomData) (t : string) (per_day : Z) :
  room_type_and_rate (room_no room) = Some (t, per_day) ->
  price_new_room room = set_cost (Long.mul (days room) per_day) (set_rtype t room).
Proof.
  unfold room_type_and_rate, price_new_room.
  zbool; intros [= <- <-]; reflexivity.
Qed.

Lemma recalculate_cost_spec (room : RoomData) (t : string) (per_day : Z) :
  room_type_and_rate (room_no room) = Some (t, per_day) ->
  recalculate_cost room = set_cost (Long.mul (days room) per_day) room.
Proof.
  unfold room_type_and_rate, recalculate_cost.
  zbool; intros [= <- <-]; reflexivity.
Qed.

Lemma rate_of_band (r_no : Z) (t : string) (per_day : Z) :
  room_type_and_rate r_no = Some (t, per_day) -> rate r_no = per_day.
Proof. unfold rate. by intros ->. Qed.

(** ** Booking and changing the length of a stay *)

Lemma add_room_vacant (r_no : Z) (n a p : string) (d : Z) (h : HotelManager)
    (t : string) (per_day : Z) :
  is_vacant r_no h ->
  room_type_and_rate r_no = Some (t, per_day) ->
  add_room r_no n a p d h
  = mkHotel (<[r_no := mkRoomData r_no n a p d (Long.mul d per_day) t 0]> (rooms_map h))
            (cout h ++ [Booked r_no n]) (cerr h).
Proof.
  intros Hv Hband. unfold is_vacant in Hv. unfold add_room. cbv zeta. rewrite !Hv.
  change (0 =? 1) with false. change (0 =? 2) with false. cbv iota.
  rewrite (price_new_room_spec _ t per_day) by exact Hband.
  reflexivity.
Qed.

Lemma add_room_invalid (r_no : Z) (n a p : string) (d : Z) (h : HotelManager) :
  check_room_status r_no h = 2 -> add_room r_no n a p d h = print (DoesNotExist r_no) h.
Proof. intros E. unfold add_room. cbv zeta. by rewrite E. Qed.

Lemma add_room_booked (r_no : Z) (n a p : string) (d : Z) (h : HotelManager) :
  check_room_status r_no h = 1 -> add_room r_no n a p d h = print (AlreadyBooked r_no) h.
Proof. intros E. unfold add_room. cbv zeta. by rewrite E. Qed.

Lemma modify_days_found (r_no d : Z) (h : HotelManager) (room : RoomData) :
  rooms_map h !! r_no = Some room ->
  modify_days r_no d h
  = mkHotel (<[r_no := recalculate_cost (set_days d room)]> (rooms_map h))
            (cout h ++ [InfoModified]) (cerr h).
Proof. intros E. unfold modify_days. by rewrite E. Qed.

Lemma booked_after_insert (r_no : Z) (room : RoomData) (rm : gmap Z RoomData)
    (out err : list Msg) :
  1 <= r_no <= 100 -> is_booked r_no (mkHotel (<[r_no := room]> rm) out err).
Proof.
  intros Hr. unfold is_booked, check_room_status. simpl.
  rewrite lookup_insert_eq. zbool; lia.
Qed.

(** What both events leave under [r_no]: a record for [d] days whose cost
    is [d] times the rate of the band, in [long] arithmetic. *)
Lemma stay_set_record (r_no d : Z) (h h' : HotelManager) :
  keyed_by_room_no (rooms_map h) ->
  stay_set r_no d h h' ->
  exists (room : RoomData) (m : Msg),
    rooms_map h' !! r_no = Some room
    /\ cout h' = cout h ++ [m]
    /\ (m = InfoModified \/ exists n, m = Booked r_no n)
    /\ is_booked r_no h'
    /\ room_no room = r_no
    /\ days room = d
    /\ cost room = Long.mul d (rate r_no).
Proof.
  intros Hkey [n a p Hv | Hb].
  - destruct (is_vacant_inv _ _ Hv) as [Hr _].
    destruct (room_type_and_rate_valid r_no Hr) as [[_ E]|[[_ E]|[_ E]]];
      rewrite (add_room_vacant _ _ _ _ _ _ _ _ Hv E), (rate_of_band _ _ _ E);
      eexists _, _; simpl; rewrite lookup_insert_eq;
      (split_and!;
         [reflexivity | reflexivity | right; by eexists
         | by apply booked_after_insert | done..]).
  - destruct (is_booked_inv _ _ Hb) as [Hr [room E]].
    pose proof (Hkey _ _ E) as Hno. subst r_no.
    rewrite (modify_days_found _ _ _ _ E).
    destruct (room_type_and_rate_valid _ Hr) as [[_ B]|[[_ B]|[_ B]]];
      rewrite (recalculate_cost_spec (set_days d room) _ _ B),
              (rate_of_band _ _ _ B);
      eexists _, _; simpl; rewrite lookup_insert_eq;
      (split_and!;
         [reflexivity | reflexivity | by left
         | by apply booked_after_insert | done..]).
Qed.

Lemma rate_bounds (r_no : Z) : 1 <= r_no <= 100 -> 10000 <= rate r_no <= 15000.
Proof.
  intros Hr.
  destruct (room_type_and_rate_valid r_no Hr) as [[_ E]|[[_ E]|[_ E]]];
    rewrite (rate_of_band _ _ _ E); lia.
Qed.

(** ** Every record sits under its own room number *)

Lemma keyed_empty : keyed_by_room_no ∅.
Proof. intros k room E. by rewrite lookup_empty in E. Qed.

Lemma keyed_insert (rm : gmap Z RoomData) (k : Z) (room : RoomData) :
  keyed_by_room_no rm -> room_no room = k -> keyed_by_room_no (<[k := room]> rm).
Proof.
  intros Hkey Hno j r E. apply lookup_insert_Some in E as [[<- <-]|[_ E]]; eauto.
Qed.

Lemma keyed_delete (rm : gmap Z RoomData) (k : Z) :
  keyed_by_room_no rm -> keyed_by_room_no (delete k rm).
Proof.
  intros Hkey j r E. apply lookup_delete_Some in E as [_ E]. eauto.
Qed.

Lemma keyed_add_room (r_no : Z) (n a p : string) (d : Z) (h : HotelManager) :
  keyed_by_room_no (rooms_map h) -> keyed_by_room_no (rooms_map (add_room r_no n a p d h)).
Proof.
  intros Hkey. unfold add_room. cbv zeta.
  destruct (check_room_status r_no h =? 1); [exact Hkey |].
  destruct (check_room_status r_no h =? 2); [exact Hkey |].
  simpl. by apply keyed_insert.
Qed.

Lemma keyed_modify_name (r_no : Z) (line : string) (h : HotelManager) :
  keyed_by_room_no (rooms_map h) -> keyed_by_room_no (rooms_map (modify_name r_no line h)).
Proof.
  intros Hkey. unfold modify_name. destruct (rooms_map h !! r_no) eqn:E; [| exact Hkey].
  simpl. apply keyed_insert; [exact Hkey | exact (Hkey _ _ E)].
Qed.

Lemma keyed_modify_address (r_no : Z) (line : string) (h : HotelManager) :
  keyed_by_room_no (rooms_map h) -> keyed_by_room_no (rooms_map (modify_address r_no line h)).
Proof.
  intros Hkey. unfold modify_address. destruct (rooms_map h !! r_no) eqn:E; [| exact Hkey].
  simpl. apply keyed_insert; [exact Hkey | exact (Hkey _ _ E)].
Qed.

Lemma keyed_modify_phone (r_no : Z) (line : string) (h : HotelManager) :
  keyed_by_room_no (rooms_map h) -> keyed_by_room_no (rooms_map (modify_phone r_no line h)).
Proof.
  intros Hkey. unfold modify_phone. destruct (rooms_map h !! r_no) eqn:E; [| exact Hkey].
  simpl. apply keyed_insert; [exact Hkey | exact (Hkey _ _ E)].
Qed.

Lemma room_no_recalculate_cost (room : RoomData) :
  room_no (recalculate_cost room) = room_no room.
Proof. unfold recalculate_cost. by repeat case_match. Qed.

Lemma keyed_modify_days (r_no d : Z) (h : HotelManager) :
  keyed_by_room_no (rooms_map h) -> keyed_by_room_no (rooms_map (modify_days r_no d h)).
Proof.
  intros Hkey. unfold modify_days. destruct (rooms_map h !! r_no) eqn:E; [| exact Hkey].
  simpl. apply keyed_insert; [exact Hkey |].
  rewrite room_no_recalculate_cost. exact (Hkey _ _ E).
Qed.

Lemma keyed_modify_customer_info (ch r_no : Z) (line : string) (d : Z) (h : HotelManager) :
  keyed_by_room_no (rooms_map h) ->
  keyed_by_room_no (rooms_map (modify_customer_info ch r_no line d h)).
Proof.
  intros Hkey. unfold modify_customer_info.
  destruct (rooms_map h !! r_no); [| exact Hkey].
  repeat case_match;
    auto using keyed_modify_name, keyed_modify_address, keyed_modify_phone,
               keyed_modify_days.
Qed.

Lemma keyed_delete_customer_record (r_no : Z) (c : ascii) (h : HotelManager) :
  keyed_by_room_no (rooms_map h) ->
  keyed_by_room_no (rooms_map (delete_customer_record r_no c h)).
Proof.
  intros Hkey. unfold delete_customer_record.
  destruct (rooms_map h !! r_no); [| exact Hkey].
  cbv zeta. case_match; simpl; [by apply keyed_delete | exact Hkey].
Qed.

Lemma keyed_order_food (m r_no n : Z) (h : HotelManager) :
  keyed_by_room_no (rooms_map h) -> keyed_by_room_no (rooms_map (order_food m r_no n h)).
Proof.
  intros Hkey. unfold order_food. destruct (rooms_map h !! r_no) eqn:E; [| exact Hkey].
  cbv zeta. repeat case_match; simpl; try exact Hkey;
    (apply keyed_insert; [exact Hkey | exact (Hkey _ _ E)]).
Qed.

Lemma rooms_map_display_all_rooms (h : HotelManager) :
  rooms_map (display_all_rooms h) = rooms_map h.
Proof. unfold display_all_rooms. by case_decide. Qed.

Lemma rooms_map_display_room (r_no : Z) (h : HotelManager) :
  rooms_map (display_room r_no h) = rooms_map h.
Proof. unfold display_room. by case_match. Qed.

Lemma keyed_run_action (a : Action) (h : HotelManager) :
  keyed_by_room_no (rooms_map h) -> keyed_by_room_no (rooms_map (run_action a h)).
Proof.
  intros Hkey. destruct a; simpl;
    auto using keyed_add_room, keyed_modify_customer_info,
               keyed_delete_customer_record, keyed_order_food.
  - by rewrite rooms_map_display_room.
  - by rewrite rooms_map_display_all_rooms.
Qed.

Lemma keyed_main_menu (actions : list Action) (h : HotelManager) :
  keyed_by_room_no (rooms_map h) -> keyed_by_room_no (rooms_map (main_menu actions h)).
Proof.
  unfold main_menu. simpl. revert h.
  induction actions as [| a actions IH]; intros h Hkey; simpl; [exact Hkey |].
  apply IH. by apply keyed_run_action.
Qed.

Lemma keyed_read_records (sz : nat) (dec : list byte -> option RoomData) (fuel : nat)
    (s temp : list byte) (rm rm' : gmap Z RoomData) (temp' : list byte) :
  keyed_by_room_no rm ->
  read_records sz dec fuel s temp rm = ReadAll rm' temp' ->
  keyed_by_room_no rm'.
Proof.
  revert s temp rm.
  induction fuel as [| fuel IH]; intros s temp rm Hkey; simpl; unfold fin_read;
    destruct (length s <? sz)%nat; simpl; try (by intros [= <- _]).
  destruct (dec (take sz s)) as [room |]; simpl; [| done].
  apply IH. by apply keyed_insert.
Qed.

Lemma keyed_load_data (sz : nat) (temp : list byte) (dec : list byte -> option RoomData)
    (dtor : list byte -> bool) (file : option (list byte)) (h : HotelManager) :
  keyed_by_room_no (rooms_map h) ->
  returned (load_data sz temp dec dtor file h)
    (fun h' => keyed_by_room_no (rooms_map h')).
Proof.
  intros Hkey. destruct file as [s |]; simpl; [| exact Hkey].
  destruct (read_records sz dec (length s) s temp (rooms_map h)) as [rm temp' |] eqn:E;
    simpl; [| done].
  destruct (dtor temp'); simpl; [| done].
  by eapply keyed_read_records.
Qed.

(** ** The claims on booking, pricing and the length of a stay *)

(** C3.  Immediately after a room is booked ([add_room] on a vacant room)
    and after every change of the length of stay ([modify_days] on a booked
    room), the record of that room is booked and its cost equals its days
    times the per-day rate of the band of its room number.  The product is
    the [long] product of the code; it is the exact integer product
    whenever that fits in a [long]. *)
Theorem room_cost_is_days_times_rate (r_no d : Z) (h h' : HotelManager) :
  keyed_by_room_no (rooms_map h) ->
  stay_set r_no d h h' ->
  is_booked r_no h'
  /\ exists room : RoomData,
       rooms_map h' !! r_no = Some room
       /\ room_no room = r_no
       /\ days room = d
       /\ cost room = Long.mul (days room) (rate (room_no room))
       /\ (Long.in_range (days room * rate (room_no room)) ->
           cost room = days room * rate (room_no room)).
Proof.
  intros Hkey Hset.
  destruct (stay_set_record _ _ _ _ Hkey Hset)
    as (room & m & Hl & _ & _ & Hb & Hno & Hd & Hc).
  split; [exact Hb |].
  exists room. rewrite Hno, Hd. split_and!; try done.
  intros Hfit. rewrite Hc. by apply long_mul_exact.
Qed.

Lemma room_cost_is_days_times_rate_witness :
  is_booked 55 (modify_days 55 5 (add_room 55 "Asha" "Pune" "98450" 2 HotelManager_new))
  /\ exists room : RoomData,
       rooms_map (modify_days 55 5 (add_room 55 "Asha" "Pune" "98450" 2 HotelManager_new))
         !! 55 = Some room
       /\ room_no room = 55
       /\ days room = 5
       /\ cost room = Long.mul (days room) (rate (room_no room))
       /\ (Long.in_range (days room * rate (room_no room)) ->
           cost room = days room * rate (room_no room)).
Proof.
  apply (room_cost_is_days_times_rate 55 5
           (add_room 55 "Asha" "Pune" "98450" 2 HotelManager_new)).
  - apply keyed_add_room, keyed_empty.
  - apply stay_updated. vm_compute. reflexivity.
Defined.

(** C9.  Neither [add_room] nor [modify_days] puts a lower bound on the
    number of days: for every value read, zero and negative ones included,
    the operation goes through on a vacant (respectively booked) room,
    reports success, and stores that number of days with the cost
    [days * rate]; the cost is zero for zero days and negative for a
    negative number of days. *)
Theorem days_has_no_lower_bound (r_no d : Z) (h h' : HotelManager) :
  keyed_by_room_no (rooms_map h) ->
  stay_set r_no d h h' ->
  (exists m : Msg,
      cout h' = cout h ++ [m] /\ (m = InfoModified \/ exists n, m = Booked r_no n))
  /\ exists room : RoomData,
       rooms_map h' !! r_no = Some room
       /\ days room = d
       /\ cost room = Long.mul d (rate r_no)
       /\ (d = 0 -> cost room = 0)
       /\ (d < 0 -> Long.min <= d * 15000 -> cost room = d * rate r_no /\ cost room < 0).
Proof.
  intros Hkey Hset.
  destruct (stay_set_record _ _ _ _ Hkey Hset)
    as (room & m & Hl & Hout & Hm & Hb & Hno & Hd & Hc).
  split; [by exists m |].
  exists room. split_and!; try done.
  - intros ->. rewrite Hc. reflexivity.
  - intros Hneg Hmin.
    destruct (is_booked_inv _ _ Hb) as [Hr _].
    pose proof (rate_bounds r_no Hr) as Hrate.
    assert (Long.in_range (d * rate r_no)) as Hfit by (long_consts; nia).
    rewrite Hc, (long_mul_exact _ _ Hfit). split; [reflexivity | nia].
Qed.

Lemma days_has_no_lower_bound_witness :
  (exists m : Msg,
      cout (add_room 7 "Ravi" "Agra" "70001" (-2) HotelManager_new)
      = cout HotelManager_new ++ [m]
      /\ (m = InfoModified \/ exists n, m = Booked 7 n))
  /\ exists room : RoomData,
       rooms_map (add_room 7 "Ravi" "Agra" "70001" (-2) HotelManager_new) !! 7 = Some room
       /\ days room = -2
       /\ cost room = Long.mul (-2) (rate 7)
       /\ (-2 = 0 -> cost room = 0)
       /\ (-2 < 0 -> Long.min <= -2 * 15000 -> cost room = -2 * rate 7 /\ cost room < 0).
Proof.
  apply (days_has_no_lower_bound 7 (-2) HotelManager_new).
  - apply keyed_empty.
  - apply stay_created. vm_compute. reflexivity.
Defined.

(** C4.  For every room number in [1,100] exactly one band applies, with
    no gap and no overlap: 1..50 is (Deluxe, 10000), 51..80 is
    (Executive, 12500), 81..100 is (Presidential, 15000), and a freshly
    priced record of that room gets that type and that rate.  Room numbers
    0 and 101 are outside the bands: the chain assigns nothing, and
    [check_room_status] rejects them as invalid before the chain runs. *)
Theorem room_bands_partition (r_no : Z) :
  1 <= r_no <= 100 ->
  ((1 <= r_no <= 50 /\ room_type_and_rate r_no = Some ("Deluxe"%string, 10000))
   \/ (51 <= r_no <= 80 /\ room_type_and_rate r_no = Some ("Executive"%string, 12500))
   \/ (81 <= r_no <= 100 /\ room_type_and_rate r_no = Some ("Presidential"%string, 15000)))
  /\ (forall (room : RoomData),
        room_no room = r_no ->
        room_type_and_rate r_no
        = Some (rtype (price_new_room room), rate r_no)
        /\ cost (price_new_room room) = Long.mul (days room) (rate r_no)
        /\ cost (recalculate_cost room) = Long.mul (days room) (rate r_no))
  /\ room_type_and_rate 0 = None
  /\ room_type_and_rate 101 = None
  /\ (forall h : HotelManager,
        check_room_status 0 h = 2 /\ check_room_status 101 h = 2).
Proof.
  intros Hr. split_and!; try done.
  - by apply room_type_and_rate_valid.
  - intros room <-.
    destruct (room_type_and_rate_valid _ Hr) as [[_ E]|[[_ E]|[_ E]]];
      rewrite (price_new_room_spec _ _ _ E), (recalculate_cost_spec _ _ _ E),
              (rate_of_band _ _ _ E), E; done.
Qed.

Lemma room_bands_partition_witness :
  ((1 <= 51 <= 50 /\ room_type_and_rate 51 = Some ("Deluxe"%string, 10000))
   \/ (51 <= 51 <= 80 /\ room_type_and_rate 51 = Some ("Executive"%string, 12500))
   \/ (81 <= 51 <= 100 /\ room_type_and_rate 51 = Some ("Presidential"%string, 15000)))
  /\ (forall (room : RoomData),
        room_no room = 51 ->
        room_type_and_rate 51
        = Some (rtype (price_new_room room), rate 51)
        /\ cost (price_new_room room) = Long.mul (days room) (rate 51)
        /\ cost (recalculate_cost room) = Long.mul (days room) (rate 51))
  /\ room_type_and_rate 0 = None
  /\ room_type_and_rate 101 = None
  /\ (forall h : HotelManager,
        check_room_status 0 h = 2 /\ check_room_status 101 h = 2).
Proof. apply (room_bands_partition 51). lia. Defined.

(** C6.  [add_room] fails for a room number outside [1,100] (reported as
    not existing) and for a room that is already booked (reported as
    booked); in both cases the map is left as it was, so the record of a
    booked room keeps every field. *)
Theorem add_room_failure_leaves_store (r_no : Z) (n a p : string) (d : Z)
    (h : HotelManager) :
  (r_no < 1 \/ 100 < r_no) \/ is_booked r_no h ->
  rooms_map (add_room r_no n a p d h) = rooms_map h
  /\ (r_no < 1 \/ 100 < r_no ->
      cout (add_room r_no n a p d h) = cout h ++ [DoesNotExist r_no])
  /\ (is_booked r_no h ->
      cout (add_room r_no n a p d h) = cout h ++ [AlreadyBooked r_no]
      /\ exists room : RoomData,
           rooms_map h !! r_no = Some room
           /\ rooms_map (add_room r_no n a p d h) !! r_no = Some room).
Proof.
  intros Hfail.
  destruct (check_room_status_cases r_no h) as [[E Hr]|[[E [Hr Hs]]|[E [Hr _]]]].
  - rewrite (add_room_invalid _ _ _ _ _ _ E). simpl. split_and!; try done.
    unfold is_booked. rewrite E. done.
  - rewrite (add_room_booked _ _ _ _ _ _ E). simpl. split_and!; try done.
    + lia.
    + intros _. destruct Hs as [room Hs]. split; [done | by exists room].
  - destruct Hfail as [Hout | Hb]; [lia |].
    unfold is_booked in Hb. rewrite E in Hb. done.
Qed.

Lemma add_room_failure_leaves_store_witness :
  let h := add_room 12 "Asha" "Pune" "98450" 4 HotelManager_new in
  rooms_map (add_room 12 "Ravi" "Agra" "70001" 1 h) = rooms_map h
  /\ (12 < 1 \/ 100 < 12 ->
      cout (add_room 12 "Ravi" "Agra" "70001" 1 h) = cout h ++ [DoesNotExist 12])
  /\ (is_booked 12 h ->
      cout (add_room 12 "Ravi" "Agra" "70001" 1 h) = cout h ++ [AlreadyBooked 12]
      /\ exists room : RoomData,
           rooms_map h !! 12 = Some room
           /\ rooms_map (add_room 12 "Ravi" "Agra" "70001" 1 h) !! 12 = Some room).
Proof.
  intros h.
  apply (add_room_failure_leaves_store 12 "Ravi" "Agra" "70001" 1 h).
  right. vm_compute. reflexivity.
Defined.

(** ** Checkout *)

(** C7.  Checkout of a room that has a record shows the guest's details
    and the total [cost + food_bill] of that record (the [long] sum of the
    code, the exact sum whenever it fits), whatever is answered
    afterwards; the record is erased only when the answer is ['y'] or
    ['Y'], and any other answer leaves the map as it was, the record
    included. *)
Theorem checkout_needs_confirmation (r_no : Z) (confirm_char : ascii)
    (h : HotelManager) (room : RoomData) :
  rooms_map h !! r_no = Some room ->
  let h' := delete_customer_record r_no confirm_char h in
  (exists verdict : Msg,
      cout h' = cout h ++ [CheckoutName (name room); CheckoutAddress (address room);
                           CheckoutPhone (phone room);
                           TotalBill (Long.add (cost room) (food_bill room));
                           verdict])
  /\ (Long.in_range (cost room + food_bill room) ->
      Long.add (cost room) (food_bill room) = cost room + food_bill room)
  /\ (confirm_char = "y"%char \/ confirm_char = "Y"%char ->
      rooms_map h' = delete r_no (rooms_map h) /\ rooms_map h' !! r_no = None)
  /\ (confirm_char <> "y"%char /\ confirm_char <> "Y"%char ->
      rooms_map h' = rooms_map h /\ rooms_map h' !! r_no = Some room).
Proof.
  intros E h'. subst h'. unfold delete_customer_record. rewrite E. cbv zeta.
  destruct (Ascii.eqb_spec confirm_char "y") as [Hy | Hy];
    [| destruct (Ascii.eqb_spec confirm_char "Y") as [HY | HY]]; simpl.
  - split_and!.
    + eexists. by rewrite <- !app_assoc.
    + apply long_add_exact.
    + intros _. split; [done | apply lookup_delete_eq].
    + intros [? _]. done.
  - split_and!.
    + eexists. by rewrite <- !app_assoc.
    + apply long_add_exact.
    + intros _. split; [done | apply lookup_delete_eq].
    + intros [_ ?]. done.
  - split_and!.
    + eexists. by rewrite <- !app_assoc.
    + apply long_add_exact.
    + intros [? | ?]; done.
    + intros _. done.
Qed.

Lemma checkout_needs_confirmation_witness :
  let h := order_food 3 1 1 (order_food 1 1 2
             (add_room 1 "Asha" "Pune" "98450" 3 HotelManager_new)) in
  let room := mkRoomData 1 "Asha" "Pune" "98450" 3 30000 "Deluxe" 2200 in
  let h' := delete_customer_record 1 "n" h in
  (exists verdict : Msg,
      cout h' = cout h ++ [CheckoutName (name room); CheckoutAddress (address room);
                           CheckoutPhone (phone room);
                           TotalBill (Long.add (cost room) (food_bill room));
                           verdict])
  /\ (Long.in_range (cost room + food_bill room) ->
      Long.add (cost room) (food_bill room) = cost room + food_bill room)
  /\ ("n"%char = "y"%char \/ "n"%char = "Y"%char ->
      rooms_map h' = delete 1 (rooms_map h) /\ rooms_map h' !! 1 = None)
  /\ ("n"%char <> "y"%char /\ "n"%char <> "Y"%char ->
      rooms_map h' = rooms_map h /\ rooms_map h' !! 1 = Some room).
Proof.
  intros h room.
  apply (checkout_needs_confirmation 1 "n" h room).
  vm_compute. reflexivity.
Defined.

(** ** Editing the text fields *)

Lemma text_edited_record (r_no : Z) (line : string) (h h' : HotelManager)
    (room : RoomData) :
  rooms_map h !! r_no = Some room ->
  text_edited r_no line h h' ->
  exists room' : RoomData,
    rooms_map h' = <[r_no := room']> (rooms_map h)
    /\ (room' = set_name line room \/ room' = set_address line room
        \/ room' = set_phone line room).
Proof.
  intros E [ | | ].
  - unfold modify_name. rewrite E. eexists. split; [reflexivity | eauto].
  - unfold modify_address. rewrite E. eexists. split; [reflexivity | eauto].
  - unfold modify_phone. rewrite E. eexists. split; [reflexivity | eauto].
Qed.

Lemma modify_customer_info_text (ch r_no : Z) (line : string) (d : Z)
    (h : HotelManager) :
  is_Some (rooms_map h !! r_no) -> 1 <= ch <= 3 ->
  text_edited r_no line h (modify_customer_info ch r_no line d h).
Proof.
  intros [room E] Hch. unfold modify_customer_info. rewrite E.
  zbool; try lia; constructor.
Qed.

(** C8.  Changing the name, the address or the phone of the record of a
    room leaves its room number, days, room type, cost and food bill as
    they were, and leaves the record of every other room as it was. *)
Theorem text_edit_frame (r_no : Z) (line : string) (h h' : HotelManager)
    (room : RoomData) :
  rooms_map h !! r_no = Some room ->
  text_edited r_no line h h' ->
  (exists room' : RoomData,
      rooms_map h' !! r_no = Some room'
      /\ room_no room' = room_no room
      /\ days room' = days room
      /\ rtype room' = rtype room
      /\ cost room' = cost room
      /\ food_bill room' = food_bill room)
  /\ (forall k : Z, k <> r_no -> rooms_map h' !! k = rooms_map h !! k).
Proof.
  intros E Hed.
  destruct (text_edited_record _ _ _ _ _ E Hed) as (room' & -> & Hroom').
  split.
  - exists room'. rewrite lookup_insert_eq.
    destruct Hroom' as [-> | [-> | ->]]; done.
  - intros k Hk. by rewrite lookup_insert_ne.
Qed.

Lemma text_edit_frame_witness :
  let h := add_room 90 "Ravi" "Agra" "70001" 2
             (add_room 12 "Asha" "Pune" "98450" 4 HotelManager_new) in
  let room := mkRoomData 12 "Asha" "Pune" "98450" 4 40000 "Deluxe" 0 in
  let h' := modify_customer_info 2 12 "Goa" 0 h in
  (exists room' : RoomData,
      rooms_map h' !! 12 = Some room'
      /\ room_no room' = room_no room
      /\ days room' = days room
      /\ rtype room' = rtype room
      /\ cost room' = cost room
      /\ food_bill room' = food_bill room)
  /\ (forall k : Z, k <> 12 -> rooms_map h' !! k = rooms_map h !! k).
Proof.
  intros h room.
  apply (text_edit_frame 12 "Goa" h (modify_customer_info 2 12 "Goa" 0 h) room).
  - vm_compute. reflexivity.
  - apply modify_customer_info_text; [| lia]. vm_compute. eauto.
Defined.

(** ** Food orders *)

(** C10.  A food order whose meal choice is none of 1 (breakfast),
    2 (lunch), 3 (dinner) changes no record: the map is left as it was,
    the food bill of the targeted room included, also when the room has a
    record and a number of people was read; the only effect is the
    message that the meal choice is invalid. *)
Theorem order_food_invalid_meal (meal_choice r_no num_people : Z) (h : HotelManager) :
  meal_choice <> 1 -> meal_choice <> 2 -> meal_choice <> 3 ->
  rooms_map (order_food meal_choice r_no num_people h) = rooms_map h
  /\ (forall room : RoomData,
        rooms_map h !! r_no = Some room ->
        rooms_map (order_food meal_choice r_no num_people h) !! r_no = Some room
        /\ cout (order_food meal_choice r_no num_people h) = cout h ++ [InvalidMeal]).
Proof.
  intros H1 H2 H3. unfold order_food.
  destruct (rooms_map h !! r_no) as [room |] eqn:E.
  - cbv zeta. zbool; try lia. rewrite E. split; [done |].
    intros ? [= <-]. done.
  - split; [done |]. intros ? [=].
Qed.

Lemma order_food_invalid_meal_witness :
  let h := add_room 12 "Asha" "Pune" "98450" 4 HotelManager_new in
  rooms_map (order_food 4 12 3 h) = rooms_map h
  /\ (forall room : RoomData,
        rooms_map h !! 12 = Some room ->
        rooms_map (order_food 4 12 3 h) !! 12 = Some room
        /\ cout (order_food 4 12 3 h) = cout h ++ [InvalidMeal]).
Proof.
  intros h. apply (order_food_invalid_meal 4 12 3 h); lia.
Defined.

Lemma order_food_meal (m : Meal) (r_no n : Z) (h : HotelManager) (room : RoomData) :
  rooms_map h !! r_no = Some room ->
  exists msg : Msg,
    order_food (meal_choice_of m) r_no n h
    = mkHotel
        (<[r_no := set_food_bill
                     (Long.add (food_bill room) (Long.mul (meal_rate m) n)) room]>
           (rooms_map h))
        (cout h ++ [msg]) (cerr h).
Proof.
  intros E. unfold order_food. rewrite E. destruct m; simpl; eexists; reflexivity.
Qed.

Lemma meal_total_app (before after : list (Meal * Z)) :
  meal_total (before ++ after) = meal_total before + meal_total after.
Proof.
  induction before as [| o before IH]; simpl; [done |]. rewrite IH. lia.
Qed.

Lemma meal_total_nonneg (orders : list (Meal * Z)) :
  Forall (fun o : Meal * Z => 0 <= o.2) orders -> 0 <= meal_total orders.
Proof.
  induction 1 as [| [m n] orders Hn _ IH]; simpl in *; [done |].
  destruct m; simpl; lia.
Qed.

(** A run of orders adds its charges to the food bill, in [long]
    arithmetic, and touches nothing else. *)
Lemma order_meals_record (r_no : Z) (orders : list (Meal * Z)) (h : HotelManager)
    (room : RoomData) :
  rooms_map h !! r_no = Some room ->
  Long.in_range (food_bill room) ->
  rooms_map (order_meals r_no orders h)
  = <[r_no := set_food_bill (Long.wrap_long (food_bill room + meal_total orders)) room]>
      (rooms_map h).
Proof.
  unfold order_meals. revert h room.
  induction orders as [| [m n] orders IH]; intros h room E Hfit; simpl.
  - rewrite Z.add_0_r, (wrap_long_small _ Hfit).
    symmetry. apply insert_id. rewrite E. by destruct room.
  - destruct (order_food_meal m r_no n h room E) as [msg ->].
    rewrite (IH _ (set_food_bill (Long.add (food_bill room) (Long.mul (meal_rate m) n)) room)).
    + simpl. rewrite insert_insert_eq. f_equal.
      unfold set_food_bill. simpl. f_equal.
      unfold Long.add, Long.mul.
      rewrite wrap_long_add_r, wrap_long_add_l. f_equal. lia.
    + simpl. apply lookup_insert_eq.
    + simpl. apply wrap_long_in_range.
Qed.

(** *** The food bill under every action of the menus *)

Lemma wrap_long_add_0 (z : Z) : Long.in_range z -> Long.wrap_long (z + 0) = z.
Proof. intros Hz. rewrite Z.add_0_r. by apply wrap_long_small. Qed.

Lemma food_bill_recalculate_cost (room : RoomData) :
  food_bill (recalculate_cost room) = food_bill room.
Proof. unfold recalculate_cost. by repeat case_match. Qed.

Lemma add_room_keeps_record (r_no r : Z) (n a p : string) (d : Z)
    (h : HotelManager) (room : RoomData) :
  rooms_map h !! r_no = Some room ->
  rooms_map (add_room r n a p d h) !! r_no = Some room.
Proof.
  intros E.
  destruct (check_room_status_cases r h) as [[S _]|[[S _]|[S [Hr Hnone]]]].
  - by rewrite (add_room_invalid _ _ _ _ _ _ S).
  - by rewrite (add_room_booked _ _ _ _ _ _ S).
  - assert (r <> r_no) as Hne by (intros ->; congruence).
    destruct (room_type_and_rate_valid r Hr) as [[_ B]|[[_ B]|[_ B]]];
      rewrite (add_room_vacant _ _ _ _ _ _ _ _ S B); simpl;
      by rewrite lookup_insert_ne.
Qed.

Lemma modify_customer_info_keeps_food_bill (r_no ch r : Z) (line : string) (d : Z)
    (h : HotelManager) (room : RoomData) :
  rooms_map h !! r_no = Some room ->
  exists room',
    rooms_map (modify_customer_info ch r line d h) !! r_no = Some room'
    /\ food_bill room' = food_bill room.
Proof.
  intros E. unfold modify_customer_info.
  destruct (rooms_map h !! r) as [room0 |] eqn:E0; [| by exists room].
  unfold modify_name, modify_address, modify_phone, modify_days. rewrite E0.
  destruct (decide (r = r_no)) as [-> | Hne].
  - assert (room0 = room) as -> by congruence.
    repeat case_match; cbv zeta; cbn [rooms_map print set_rooms];
      first [ by exists room
            | rewrite lookup_insert_eq; eexists; (split; [reflexivity |]);
              by rewrite ?food_bill_recalculate_cost ].
  - exists room.
    repeat case_match; cbv zeta; cbn [rooms_map print set_rooms];
      rewrite ?lookup_insert_ne by done; done.
Qed.

Lemma delete_customer_record_keeps_record (r_no r : Z) (c : ascii)
    (h : HotelManager) (room : RoomData) :
  rooms_map h !! r_no = Some room ->
  checks_out r_no (CheckOut r c) = false ->
  rooms_map (delete_customer_record r c h) !! r_no = Some room.
Proof.
  intros E Hkeep. unfold delete_customer_record.
  destruct (rooms_map h !! r) as [room0 |] eqn:E0; [| done].
  cbv zeta. simpl in Hkeep.
  destruct (Ascii.eqb c "y" || Ascii.eqb c "Y"); simpl; [| done].
  rewrite andb_true_r in Hkeep. apply Z.eqb_neq in Hkeep.
  by rewrite lookup_delete_ne.
Qed.

Lemma order_food_charges (r_no m r n : Z) (h : HotelManager) (room : RoomData) :
  rooms_map h !! r_no = Some room ->
  Long.in_range (food_bill room) ->
  exists room',
    rooms_map (order_food m r n h) !! r_no = Some room'
    /\ food_bill room'
       = Long.wrap_long (food_bill room + charge_for r_no (OrderFood m r n)).
Proof.
  intros E Hfit. unfold order_food, charge_for, meal_rate_of_choice.
  destruct (rooms_map h !! r) as [room0 |] eqn:E0.
  - destruct (Z.eqb_spec r r_no) as [-> | Hne].
    + assert (room0 = room) as -> by congruence.
      unfold calculateBreakfastCost, calculateLunchCost, calculateDinnerCost.
      cbv zeta.
      destruct (m =? 1); [| destruct (m =? 2); [| destruct (m =? 3)]];
        cbn [rooms_map print set_rooms fst snd];
        first [ exists room; split; [exact E |];
                rewrite Z.mul_0_r; symmetry; by apply wrap_long_add_0
              | rewrite lookup_insert_eq; eexists; (split; [reflexivity |]);
                cbn [food_bill set_food_bill]; unfold Long.add, Long.mul;
                rewrite wrap_long_add_r; f_equal; lia ].
    + exists room. split; [| symmetry; by apply wrap_long_add_0].
      repeat case_match; cbv zeta; cbn [rooms_map print set_rooms];
        rewrite ?lookup_insert_ne by done; done.
  - exists room. split; [done |].
    destruct (Z.eqb_spec r r_no) as [-> | _]; [congruence |].
    symmetry. by apply wrap_long_add_0.
Qed.

(** One action of the menus that is no checkout of the room adds its
    charge to the food bill of the room, and nothing else. *)
Lemma run_action_food_bill (r_no : Z) (a : Action) (h : HotelManager)
    (room : RoomData) :
  rooms_map h !! r_no = Some room ->
  Long.in_range (food_bill room) ->
  checks_out r_no a = false ->
  exists room',
    rooms_map (run_action a h) !! r_no = Some room'
    /\ food_bill room' = Long.wrap_long (food_bill room + charge_for r_no a).
Proof.
  intros E Hfit Hkeep.
  destruct a as [r n a p d | r | | ch r line d | r c | | m r n |]; simpl.
  - exists room. split; [by apply add_room_keeps_record |].
    symmetry. by apply wrap_long_add_0.
  - exists room. rewrite rooms_map_display_room. split; [done |].
    symmetry. by apply wrap_long_add_0.
  - exists room. rewrite rooms_map_display_all_rooms. split; [done |].
    symmetry. by apply wrap_long_add_0.
  - destruct (modify_customer_info_keeps_food_bill r_no ch r line d h room E)
      as (room' & E' & Hfb).
    exists room'. split; [done |]. rewrite Hfb. symmetry. by apply wrap_long_add_0.
  - exists room. split; [by apply delete_customer_record_keeps_record |].
    symmetry. by apply wrap_long_add_0.
  - exists room. split; [done |]. symmetry. by apply wrap_long_add_0.
  - by apply order_food_charges.
  - exists room. split; [done |]. symmetry. by apply wrap_long_add_0.
Qed.

Lemma run_actions_food_bill (r_no : Z) (actions : list Action) (h : HotelManager)
    (room : RoomData) :
  rooms_map h !! r_no = Some room ->
  Long.in_range (food_bill room) ->
  Forall (fun a => checks_out r_no a = false) actions ->
  exists room',
    rooms_map (run_actions actions h) !! r_no = Some room'
    /\ food_bill room' = Long.wrap_long (food_bill room + charges_for r_no actions).
Proof.
  intros E Hfit Hkeep. revert h room E Hfit.
  induction Hkeep as [| a actions Ha _ IH]; intros h room E Hfit; simpl.
  - exists room. split; [done |]. symmetry. by apply wrap_long_add_0.
  - destruct (run_action_food_bill r_no a h room E Hfit Ha) as (room1 & E1 & Hfb1).
    destruct (IH (run_action a h) room1 E1) as (room' & E' & Hfb').
    { rewrite Hfb1. apply wrap_long_in_range. }
    exists room'. split; [exact E' |].
    rewrite Hfb', Hfb1, wrap_long_add_l. f_equal. lia.
Qed.

Lemma charges_for_app (r_no : Z) (before after : list Action) :
  charges_for r_no (before ++ after) = charges_for r_no before + charges_for r_no after.
Proof.
  induction before as [| a before IH]; simpl; [done |]. rewrite IH. lia.
Qed.

Lemma charges_for_nonneg (r_no : Z) (actions : list Action) :
  Forall (people_not_negative r_no) actions -> 0 <= charges_for r_no actions.
Proof.
  induction 1 as [| a actions Ha _ IH]; simpl; [done |].
  assert (0 <= charge_for r_no a); [| lia].
  destruct a as [| | | | | | m r n |]; simpl in *; try lia.
  destruct (Z.eqb_spec r r_no) as [Hr | _]; [| lia].
  specialize (Ha Hr). unfold meal_rate_of_choice. repeat case_match; lia.
Qed.

Lemma charges_for_meal_orders (r_no : Z) (orders : list (Meal * Z)) :
  charges_for r_no (meal_orders r_no orders) = meal_total orders.
Proof.
  induction orders as [| [m n] orders IH]; simpl; [done |].
  rewrite IH, Z.eqb_refl. by destruct m.
Qed.

(** C5 (amended).  For a room with a record and every run of actions of
    the menus that does not check it out (bookings, displays, edits of
    any room, changes of days, refused checkouts, food orders for any
    room, wrong choices), the food bill afterwards is the food bill
    before plus the sum of [people_count * meal_rate(meal)] over the meal
    orders for that room in the run (breakfast 500, lunch 1000, dinner
    1200 per person), computed in [long] arithmetic.  When no such order
    has a negative people count and the total fits in a [long], the food
    bill is exactly that sum after every prefix of the run and never
    decreases along the run, whatever the other actions are. *)
Theorem food_bill_sums_orders_and_never_decreases (r_no : Z) (actions : list Action)
    (h : HotelManager) (room : RoomData) :
  rooms_map h !! r_no = Some room ->
  Long.in_range (food_bill room) ->
  Forall (fun a => checks_out r_no a = false) actions ->
  (exists room',
      rooms_map (run_actions actions h) !! r_no = Some room'
      /\ food_bill room' = Long.wrap_long (food_bill room + charges_for r_no actions))
  /\ (forall orders : list (Meal * Z),
        charges_for r_no (meal_orders r_no orders) = meal_total orders)
  /\ (Forall (people_not_negative r_no) actions ->
      food_bill room + charges_for r_no actions <= Long.max ->
      forall before after : list Action,
        actions = before ++ after ->
        exists r1 r2 : RoomData,
          rooms_map (run_actions before h) !! r_no = Some r1
          /\ rooms_map (run_actions actions h) !! r_no = Some r2
          /\ food_bill r1 = food_bill room + charges_for r_no before
          /\ food_bill r2 = food_bill room + charges_for r_no actions
          /\ food_bill r1 <= food_bill r2).
Proof.
  intros E Hfit Hkeep. split_and!.
  - by apply run_actions_food_bill.
  - apply charges_for_meal_orders.
  - intros Hpos Hmax before after ->.
    apply Forall_app in Hkeep as [Hkb Hka].
    destruct (run_actions_food_bill r_no before h room E Hfit Hkb) as (r1 & E1 & Hfb1).
    destruct (run_actions_food_bill r_no (before ++ after) h room E Hfit)
      as (r2 & E2 & Hfb2); [by apply Forall_app |].
    apply Forall_app in Hpos as [Hb Ha].
    apply charges_for_nonneg in Hb, Ha.
    rewrite charges_for_app in *.
    exists r1, r2. rewrite Hfb1, Hfb2.
    rewrite !wrap_long_small by (long_consts; lia).
    split_and!; try done. lia.
Qed.

Lemma food_bill_sums_orders_and_never_decreases_witness :
  let h := add_room 1 "Asha" "Pune" "98450" 3 HotelManager_new in
  let room := mkRoomData 1 "Asha" "Pune" "98450" 3 30000 "Deluxe" 0 in
  let actions := [OrderFood 1 1 2; ModifyInformation 4 1 "" 5; CheckOut 1 "n";
                  OrderFood 2 12 4; BookARoom 1 "Ravi" "Agra" "70001" 2;
                  RoomsAllotted; OrderFood 3 1 1] in
  (exists room',
      rooms_map (run_actions actions h) !! 1 = Some room'
      /\ food_bill room' = Long.wrap_long (food_bill room + charges_for 1 actions))
  /\ charges_for 1 actions = 2200
  /\ (exists r1 r2 : RoomData,
        rooms_map (run_actions [OrderFood 1 1 2; ModifyInformation 4 1 "" 5] h) !! 1
        = Some r1
        /\ rooms_map (run_actions actions h) !! 1 = Some r2
        /\ food_bill r1 = 1000
        /\ food_bill r2 = 2200
        /\ food_bill r1 <= food_bill r2).
Proof.
  intros h room actions.
  destruct (food_bill_sums_orders_and_never_decreases 1 actions h room)
    as (Hsum & _ & Hmono).
  - vm_compute. reflexivity.
  - vm_compute. split; discriminate.
  - repeat constructor.
  - split; [exact Hsum |]. split; [vm_compute; reflexivity |].
    destruct (Hmono
                ltac:(unfold actions;
                      repeat (constructor; [first [exact I | intros ?; lia] |]);
                      constructor)
                ltac:(vm_compute; discriminate)
                [OrderFood 1 1 2; ModifyInformation 4 1 "" 5]
                [CheckOut 1 "n"; OrderFood 2 12 4; BookARoom 1 "Ravi" "Agra" "70001" 2;
                 RoomsAllotted; OrderFood 3 1 1]
                eq_refl)
      as (r1 & r2 & E1 & E2 & Hb1 & Hb2 & Hle).
    exists r1, r2. split_and!; done.
Defined.

(** C5, as stated, fails: a negative people count is accepted and lowers
    the food bill.  Room 1 is booked, breakfast is ordered for 2 (the bill
    is 1000), then breakfast for -1: the bill drops to 500 with the record
    still in place. *)
Lemma food_bill_decreases_counterexample :
  let h0 := add_room 1 "Asha" "Pune" "98450" 3 HotelManager_new in
  let h1 := order_meals 1 [(Breakfast, 2)] h0 in
  let h2 := order_meals 1 [(Breakfast, -1)] h1 in
  h1 = order_food 1 1 2 h0
  /\ h2 = order_food 1 1 (-1) h1
  /\ food_bill <$> rooms_map h1 !! 1 = Some 1000
  /\ food_bill <$> rooms_map h2 !! 1 = Some 500
  /\ 500 < 1000.
Proof.
  cbv zeta. split_and!; [reflexivity | reflexivity | | | lia].
  - vm_compute. reflexivity.
  - vm_compute. reflexivity.
Qed.

(** ** Persistence *)

Lemma last_cons_default {A : Type} (l : list A) (a d : A) :
  List.last (a :: l) d = List.last l a.
Proof.
  revert a d. induction l as [| b l IH]; intros a d; [done |].
  change (List.last (b :: l) d = List.last (b :: l) a). by rewrite !IH.
Qed.

Section PersistenceFacts.

Variable sizeof_RoomData : nat.
Variable temp_room_image : list byte.
Variable object_of_bytes : list byte -> option RoomData.
Variable destructor_returns : list byte -> bool.
Hypothesis sizeof_pos : (0 < sizeof_RoomData)%nat.

Lemma fin_read_image (image rest temp : list byte) :
  length image = sizeof_RoomData ->
  fin_read sizeof_RoomData (image ++ rest) temp = (true, image, rest).
Proof.
  intros Hlen. unfold fin_read.
  destruct (Nat.ltb_spec (length (image ++ rest)) sizeof_RoomData) as [Hlt | _].
  - rewrite length_app in Hlt. lia.
  - by rewrite take_app_length', drop_app_length'.
Qed.

Lemma fin_read_short (s temp : list byte) :
  (length s < sizeof_RoomData)%nat ->
  fin_read sizeof_RoomData s temp = (false, s ++ drop (length s) temp, []).
Proof.
  intros Hlen. unfold fin_read.
  destruct (Nat.ltb_spec (length s) sizeof_RoomData); [done | lia].
Qed.

Lemma read_records_short (fuel : nat) (s temp : list byte) (rm : gmap Z RoomData) :
  (length s < sizeof_RoomData)%nat ->
  read_records sizeof_RoomData object_of_bytes fuel s temp rm
  = ReadAll rm (s ++ drop (length s) temp).
Proof. intros Hlen. destruct fuel; simpl; by rewrite fin_read_short. Qed.

(** When every whole image is copied without a fault the loop reads the
    stream to its end. *)
Lemma read_records_images (images : list (list byte)) (tail : list byte)
    (fuel : nat) (temp : list byte) (rm : gmap Z RoomData) :
  Forall (fun image => length image = sizeof_RoomData) images ->
  (length tail < sizeof_RoomData)%nat ->
  (length images <= fuel)%nat ->
  Forall (fun image => is_Some (object_of_bytes image)) images ->
  read_records sizeof_RoomData object_of_bytes fuel (concat images ++ tail) temp rm
  = ReadAll (insert_images object_of_bytes images rm)
            (tail ++ drop (length tail) (List.last images temp)).
Proof.
  intros Himg Htail. revert fuel temp rm.
  induction Himg as [| image images Hlen _ IH]; intros fuel temp rm Hfuel Hdec.
  - simpl. by apply read_records_short.
  - destruct fuel as [| fuel]; simpl in Hfuel; [lia |].
    apply Forall_cons in Hdec as [[room Hroom] Hdec].
    cbn [concat read_records]. rewrite <- app_assoc, (fin_read_image _ _ _ Hlen).
    rewrite Hroom, IH by (done || lia).
    rewrite last_cons_default. cbn [insert_images fold_left]. by rewrite Hroom.
Qed.

(** When the copy of some whole image faults the loop ends there. *)
Lemma read_records_fault (images : list (list byte)) (tail : list byte)
    (fuel : nat) (temp : list byte) (rm : gmap Z RoomData) :
  Forall (fun image => length image = sizeof_RoomData) images ->
  (length images <= fuel)%nat ->
  Exists (fun image => object_of_bytes image = None) images ->
  read_records sizeof_RoomData object_of_bytes fuel (concat images ++ tail) temp rm
  = Faulted.
Proof.
  intros Himg. revert fuel temp rm.
  induction Himg as [| image images Hlen _ IH]; intros fuel temp rm Hfuel Hex.
  - by apply Exists_nil in Hex.
  - destruct fuel as [| fuel]; simpl in Hfuel; [lia |].
    cbn [concat read_records]. rewrite <- app_assoc, (fin_read_image _ _ _ Hlen).
    destruct (object_of_bytes image) as [room |] eqn:Hroom; [| done].
    apply Exists_cons in Hex as [Hex | Hex]; [congruence |].
    apply IH; [lia | done].
Qed.

Lemma length_concat_images (images : list (list byte)) :
  Forall (fun image => length image = sizeof_RoomData) images ->
  length (concat images) = (length images * sizeof_RoomData)%nat.
Proof.
  induction 1 as [| image images Hlen _ IH]; simpl; [done |].
  rewrite length_app, IH, Hlen. lia.
Qed.

(** Every stream is a run of whole images followed by fewer bytes than
    one image. *)
Lemma stream_split (s : list byte) :
  exists (images : list (list byte)) (tail : list byte),
    s = concat images ++ tail
    /\ Forall (fun image => length image = sizeof_RoomData) images
    /\ (length tail < sizeof_RoomData)%nat.
Proof.
  remember (length s) as n eqn:Hn. revert s Hn.
  induction n as [n IH] using lt_wf_ind. intros s ->.
  destruct (Nat.lt_ge_cases (length s) sizeof_RoomData) as [Hlt | Hge].
  - exists [], s. by split_and!.
  - destruct (IH (length (drop sizeof_RoomData s))) with (s := drop sizeof_RoomData s)
      as (images & tail & Hs & Himg & Htail); [rewrite length_drop; lia | done |].
    exists (take sizeof_RoomData s :: images), tail. split_and!; [| | done].
    + simpl. by rewrite <- app_assoc, <- Hs, take_drop.
    + constructor; [| done]. rewrite length_take. lia.
Qed.

Lemma images_fit_fuel (images : list (list byte)) (tail : list byte) :
  Forall (fun image => length image = sizeof_RoomData) images ->
  (length images <= length (concat images ++ tail))%nat.
Proof.
  intros Himg. rewrite length_app, (length_concat_images _ Himg). nia.
Qed.

Lemma load_data_images (images : list (list byte)) (tail : list byte)
    (h : HotelManager) :
  Forall (fun image => length image = sizeof_RoomData) images ->
  (length tail < sizeof_RoomData)%nat ->
  Forall (fun image => is_Some (object_of_bytes image)) images ->
  load_data sizeof_RoomData temp_room_image object_of_bytes destructor_returns
    (Some (concat images ++ tail)) h
  = if destructor_returns (temp_room_after temp_room_image images tail)
    then Returns (mkHotel (insert_images object_of_bytes images (rooms_map h))
                          (cout h ++ [DataLoaded]) (cerr h))
    else Aborted (cout h ++ [DataLoaded]) (cerr h).
Proof.
  intros Himg Htail Hdec. unfold load_data.
  rewrite read_records_images by (done || by apply images_fit_fuel).
  unfold temp_room_after. by destruct (destructor_returns _).
Qed.

Lemma load_data_fault (images : list (list byte)) (tail : list byte)
    (h : HotelManager) :
  Forall (fun image => length image = sizeof_RoomData) images ->
  Exists (fun image => object_of_bytes image = None) images ->
  load_data sizeof_RoomData temp_room_image object_of_bytes destructor_returns
    (Some (concat images ++ tail)) h
  = Aborted (cout h) (cerr h).
Proof.
  intros Himg Hex. unfold load_data.
  by rewrite (read_records_fault images tail (length (concat images ++ tail))
                temp_room_image (rooms_map h) Himg (images_fit_fuel _ _ Himg) Hex).
Qed.

(** The loop makes at most one record out of every [sizeof] bytes. *)
Lemma size_read_records (fuel : nat) (s temp : list byte) (rm rm' : gmap Z RoomData)
    (temp' : list byte) :
  read_records sizeof_RoomData object_of_bytes fuel s temp rm = ReadAll rm' temp' ->
  (size rm' * sizeof_RoomData <= size rm * sizeof_RoomData + length s)%nat.
Proof.
  revert s temp rm.
  induction fuel as [| fuel IH]; intros s temp rm; simpl; unfold fin_read;
    destruct (Nat.ltb_spec (length s) sizeof_RoomData) as [Hlt | Hge]; simpl;
    try (intros [= <- _]; lia).
  destruct (object_of_bytes (take sizeof_RoomData s)) as [room |]; simpl; [| done].
  intros E. apply IH in E. rewrite length_drop, map_size_insert in E.
  destruct (rm !! room_no room); simpl in E; nia.
Qed.

Lemma load_data_console (file : option (list byte)) (h : HotelManager) :
  cerr_of (load_data sizeof_RoomData temp_room_image object_of_bytes
             destructor_returns file h)
  = cerr h.
Proof.
  destruct file as [s |]; simpl; [| done].
  destruct (read_records _ _ _ _ _ _) as [rm temp |]; simpl; [| done].
  by destruct (destructor_returns temp).
Qed.

End PersistenceFacts.

(** *** Images of a fixed width *)

Lemma image_number_lt (image : list byte) :
  (image_number image < 256 ^ length image)%nat.
Proof.
  induction image as [| b rest IH]; cbn [image_number length].
  - rewrite Nat.pow_0_r. lia.
  - rewrite Nat.pow_succ_r'. pose proof (Byte.to_nat_bounded b). lia.
Qed.

Lemma image_number_inj (image1 image2 : list byte) :
  length image1 = length image2 ->
  image_number image1 = image_number image2 ->
  image1 = image2.
Proof.
  revert image2.
  induction image1 as [| b1 rest1 IH]; intros [| b2 rest2]; cbn [image_number length];
    try done.
  intros [= Hlen] Hnum.
  pose proof (Byte.to_nat_bounded b1). pose proof (Byte.to_nat_bounded b2).
  assert (Byte.to_nat b1 = Byte.to_nat b2) as Hb by lia.
  assert (image_number rest1 = image_number rest2) as Hrest by lia.
  f_equal; [| by apply IH].
  pose proof (Byte.of_to_nat b1) as E1. rewrite Hb, Byte.of_to_nat in E1. congruence.
Qed.

Lemma to_nat_default_of_nat (k : nat) :
  (k < 256)%nat -> Byte.to_nat (default x00 (Byte.of_nat k)) = k.
Proof.
  intros Hk. destruct (Byte.of_nat k) as [b |] eqn:E.
  - simpl. by apply Byte.to_of_nat.
  - apply Byte.of_nat_None_iff in E. lia.
Qed.

Lemma length_digits (n i : nat) : length (digits n i) = n.
Proof. revert i. induction n as [| n IH]; intros i; simpl; [done |]. by rewrite IH. Qed.

Lemma digits_inj (n i j : nat) :
  (i < 256 ^ n)%nat -> (j < 256 ^ n)%nat -> digits n i = digits n j -> i = j.
Proof.
  revert i j. induction n as [| n IH]; intros i j Hi Hj.
  - rewrite Nat.pow_0_r in *. lia.
  - rewrite Nat.pow_succ_r' in *. cbn [digits].
    remember (i mod 256)%nat as ri eqn:Hri. remember (j mod 256)%nat as rj eqn:Hrj.
    remember (i / 256)%nat as qi eqn:Hqi. remember (j / 256)%nat as qj eqn:Hqj.
    intros [= Hhd Htl]. subst ri rj qi qj.
    apply (f_equal Byte.to_nat) in Hhd.
    rewrite !to_nat_default_of_nat in Hhd by (apply Nat.mod_upper_bound; lia).
    apply IH in Htl;
      [| apply Nat.Div0.div_lt_upper_bound; lia
       | apply Nat.Div0.div_lt_upper_bound; lia].
    rewrite (Nat.div_mod_eq i 256), (Nat.div_mod_eq j 256). by rewrite Hhd, Htl.
Qed.

Lemma length_string_of_list_byte (l : list byte) :
  String.length (string_of_list_byte l) = length l.
Proof.
  unfold string_of_list_byte.
  induction l as [| b l IH]; simpl; [done |]. by rewrite IH.
Qed.

Lemma guest_named_inj (l1 l2 : list byte) : guest_named l1 = guest_named l2 -> l1 = l2.
Proof.
  intros [= E]. apply (f_equal list_byte_of_string) in E.
  by rewrite !list_byte_of_string_of_list_byte in E.
Qed.

Lemma save_data_one_guest {heap : Type} (object_bytes : heap -> Z -> RoomData -> list byte)
    (mem : heap) (file : option (list byte)) (room : RoomData) :
  (save_data object_bytes mem true file (one_guest room)).2
  = Some (object_bytes mem (room_no room) room).
Proof.
  unfold save_data, one_guest. simpl.
  rewrite map_to_list_singleton. simpl. by rewrite app_nil_r.
Qed.

(** Two guests with different names of [sizeof + 1] bytes and the same
    image. *)
Lemma images_collide (sz : nat) (object_bytes : RoomData -> list byte) :
  (forall room, length (object_bytes room) = sz) ->
  exists l1 l2 : list byte,
    l1 <> l2 /\ length l1 = S sz /\ length l2 = S sz
    /\ object_bytes (guest_named l1) = object_bytes (guest_named l2).
Proof.
  intros Hwidth.
  destruct (nat_pigeonhole
              (fun i => image_number (object_bytes (guest_named (digits (S sz) i))))
              (256 ^ S sz) (256 ^ sz))%nat as (i1 & i2 & Hlt & Hnum).
  - rewrite Nat.pow_succ_r'. pose proof (Nat.pow_nonzero 256 sz). lia.
  - intros i _. rewrite <- (Hwidth (guest_named (digits (S sz) i))) at 2.
    apply image_number_lt.
  - exists (digits (S sz) i1), (digits (S sz) i2).
    rewrite !length_digits. split_and!; try done.
    + intros E. apply digits_inj in E; lia.
    + apply image_number_inj; [by rewrite !Hwidth | done].
Qed.

(** *** The example layout *)

Lemma length_le_bytes (n : nat) (z : Z) : length (le_bytes n z) = n.
Proof. revert z. induction n as [| n IH]; intros z; simpl; [done |]. by rewrite IH. Qed.

Lemma length_example_string_image (addr : Z) (s : string) :
  length (example_string_image addr s) = 32%nat.
Proof.
  unfold example_string_image.
  destruct (length (list_byte_of_string s) <=? 15)%nat;
    rewrite !length_app, !length_le_bytes, ?length_take, ?length_app, ?repeat_length;
    lia.
Qed.

Lemma length_example_object_bytes (base k : Z) (room : RoomData) :
  length (example_object_bytes base k room) = example_sizeof.
Proof.
  unfold example_object_bytes, example_image_at, example_sizeof.
  rewrite !length_app, !length_le_bytes, !length_example_string_image, repeat_length.
  reflexivity.
Qed.

(** ** The claims on persistence *)

(** C1.  The round trip fails on the code.  [save_data] writes one image
    of [sizeof(RoomData)] bytes per record, whatever the strings hold, so
    whatever the layout and whatever memory each run saves from, there
    are two guests of room 1 with different names of [sizeof + 1] bytes
    whose one-record stores are saved as the same file; on that file
    [load_data] aborts the process or returns with one map, and that map
    differs from at least one of the two stores. *)
Theorem fixed_width_images_lose_names (heap : Type) (sz : nat)
    (object_bytes : heap -> Z -> RoomData -> list byte) (heap_of : RoomData -> heap)
    (temp_room_image : list byte) (object_of_bytes : list byte -> option RoomData)
    (destructor_returns : list byte -> bool) :
  (forall mem k room, length (object_bytes mem k room) = sz) ->
  exists r1 r2 : RoomData,
    r1 <> r2
    /\ room_no r1 = 1 /\ room_no r2 = 1
    /\ String.length (name r1) = S sz /\ String.length (name r2) = S sz
    /\ (save_data object_bytes (heap_of r1) true None (one_guest r1)).2
       = (save_data object_bytes (heap_of r2) true None (one_guest r2)).2
    /\ (returned (load_data sz temp_room_image object_of_bytes destructor_returns
                     (save_data object_bytes (heap_of r1) true None (one_guest r1)).2
                     HotelManager_new)
          (fun h => rooms_map h <> rooms_map (one_guest r1))
        \/ returned (load_data sz temp_room_image object_of_bytes destructor_returns
                        (save_data object_bytes (heap_of r2) true None (one_guest r2)).2
                        HotelManager_new)
             (fun h => rooms_map h <> rooms_map (one_guest r2))).
Proof.
  intros Hwidth.
  destruct (images_collide sz (fun room => object_bytes (heap_of room) 1 room))
    as (l1 & l2 & Hne & Hl1 & Hl2 & Himg); [intros room; apply Hwidth |].
  exists (guest_named l1), (guest_named l2).
  assert (guest_named l1 <> guest_named l2) as Hguests
    by (intros E; by apply guest_named_inj in E).
  rewrite !save_data_one_guest.
  change (room_no (guest_named l1)) with 1. change (room_no (guest_named l2)) with 1.
  rewrite Himg.
  split_and!; try done.
  - simpl. by rewrite length_string_of_list_byte.
  - simpl. by rewrite length_string_of_list_byte.
  - destruct (load_data sz temp_room_image object_of_bytes destructor_returns
                (Some (object_bytes (heap_of (guest_named l2)) 1 (guest_named l2)))
                HotelManager_new) as [h | out err]; simpl; [| by left].
    destruct (decide (rooms_map h = rooms_map (one_guest (guest_named l1)))) as [E | E];
      [right | by left].
    rewrite E. simpl. intros E'.
    apply (f_equal (lookup 1)) in E'. rewrite !lookup_singleton_eq in E'. congruence.
Qed.

Lemma fixed_width_images_lose_names_witness :
  exists r1 r2 : RoomData,
    r1 <> r2
    /\ room_no r1 = 1 /\ room_no r2 = 1
    /\ String.length (name r1) = S example_sizeof
    /\ String.length (name r2) = S example_sizeof
    /\ (save_data example_object_bytes 93824992235520 true None (one_guest r1)).2
       = (save_data example_object_bytes 93824992235520 true None (one_guest r2)).2
    /\ (returned (load_data example_sizeof example_temp_room_image
                     example_object_of_bytes example_destructor_returns
                     (save_data example_object_bytes 93824992235520 true None
                        (one_guest r1)).2
                     HotelManager_new)
          (fun h => rooms_map h <> rooms_map (one_guest r1))
        \/ returned (load_data example_sizeof example_temp_room_image
                        example_object_of_bytes example_destructor_returns
                        (save_data example_object_bytes 93824992235520 true None
                           (one_guest r2)).2
                        HotelManager_new)
             (fun h => rooms_map h <> rooms_map (one_guest r2))).
Proof.
  apply (fixed_width_images_lose_names Z example_sizeof example_object_bytes
           (fun _ => 93824992235520) example_temp_room_image
           example_object_of_bytes example_destructor_returns).
  intros mem k room. apply length_example_object_bytes.
Defined.

(** C2 (amended).  [load_data] never reports a stream as corrupt and
    never empties the store.  Every stream is a run of whole images
    followed by fewer bytes than one image.  When the copy of every whole
    image goes through, the records of the whole images are put in the
    map, in stream order, the trailing bytes of a stream that ends
    mid-record are dropped, and the load is reported as successful; the
    call then returns, or the process is aborted when [temp_room] is
    destroyed, according to the bytes the last reads left in it.  When
    the copy of a whole image faults, the process is aborted there with
    nothing reported.  When the file is absent nothing is loaded, which is
    reported as no existing data and is not an error: a new manager keeps
    its empty map. *)
Theorem load_data_keeps_whole_records (sz : nat) (temp_room_image : list byte)
    (object_of_bytes : list byte -> option RoomData)
    (destructor_returns : list byte -> bool) (s : list byte) (h : HotelManager) :
  (0 < sz)%nat ->
  (exists (images : list (list byte)) (tail : list byte),
      s = concat images ++ tail
      /\ Forall (fun image => length image = sz) images
      /\ (length tail < sz)%nat
      /\ (Forall (fun image => is_Some (object_of_bytes image)) images ->
          load_data sz temp_room_image object_of_bytes destructor_returns (Some s) h
          = if destructor_returns (temp_room_after temp_room_image images tail)
            then Returns (mkHotel (insert_images object_of_bytes images (rooms_map h))
                                  (cout h ++ [DataLoaded]) (cerr h))
            else Aborted (cout h ++ [DataLoaded]) (cerr h))
      /\ (Exists (fun image => object_of_bytes image = None) images ->
          load_data sz temp_room_image object_of_bytes destructor_returns (Some s) h
          = Aborted (cout h) (cerr h)))
  /\ cerr_of (load_data sz temp_room_image object_of_bytes destructor_returns
                (Some s) h)
     = cerr h
  /\ load_data sz temp_room_image object_of_bytes destructor_returns None h
     = Returns (mkHotel (rooms_map h) (cout h ++ [NoRecordFile]) (cerr h))
  /\ load_data sz temp_room_image object_of_bytes destructor_returns None
       HotelManager_new
     = Returns (mkHotel ∅ [NoRecordFile] []).
Proof.
  intros Hsz. split_and!; [| apply load_data_console | done | done].
  destruct (stream_split sz Hsz s) as (images & tail & -> & Himg & Htail).
  exists images, tail. split_and!; try done.
  - intros Hdec. by apply load_data_images.
  - intros Hex. by apply load_data_fault.
Qed.

Lemma load_data_keeps_whole_records_witness :
  let s := example_plain_image 7 3 30000 0 ++ [x09] in
  (exists (images : list (list byte)) (tail : list byte),
      s = concat images ++ tail
      /\ Forall (fun image => length image = example_sizeof) images
      /\ (length tail < example_sizeof)%nat
      /\ (Forall (fun image => is_Some (example_object_of_bytes image)) images ->
          load_data example_sizeof example_temp_room_image example_object_of_bytes
            example_destructor_returns (Some s) HotelManager_new
          = if example_destructor_returns
                 (temp_room_after example_temp_room_image images tail)
            then Returns (mkHotel (insert_images example_object_of_bytes images
                                     (rooms_map HotelManager_new))
                            (cout HotelManager_new ++ [DataLoaded])
                            (cerr HotelManager_new))
            else Aborted (cout HotelManager_new ++ [DataLoaded]) (cerr HotelManager_new))
      /\ (Exists (fun image => example_object_of_bytes image = None) images ->
          load_data example_sizeof example_temp_room_image example_object_of_bytes
            example_destructor_returns (Some s) HotelManager_new
          = Aborted (cout HotelManager_new) (cerr HotelManager_new)))
  /\ cerr_of (load_data example_sizeof example_temp_room_image
                example_object_of_bytes example_destructor_returns
                (Some s) HotelManager_new)
     = cerr HotelManager_new
  /\ load_data example_sizeof example_temp_room_image example_object_of_bytes
       example_destructor_returns None HotelManager_new
     = Returns (mkHotel (rooms_map HotelManager_new)
                  (cout HotelManager_new ++ [NoRecordFile]) (cerr HotelManager_new))
  /\ load_data example_sizeof example_temp_room_image example_object_of_bytes
       example_destructor_returns None HotelManager_new
     = Returns (mkHotel ∅ [NoRecordFile] []).
Proof.
  intros s.
  apply (load_data_keeps_whole_records example_sizeof example_temp_room_image
           example_object_of_bytes example_destructor_returns s HotelManager_new).
  unfold example_sizeof. lia.
Defined.

(** C2, as stated, fails: a stream that ends mid-record is not reported
    as corrupt and the store is not emptied.  In the example layout, a
    file of 161 bytes (one whole image of room 7 and one stray byte) is
    loaded as the record of room 7 and reported as loaded; a file of one
    byte is reported as loaded too. *)
Lemma load_data_truncated_counterexample :
  let file := x07 :: repeat x00 160 in
  length file = 161%nat
  /\ load_data example_sizeof example_temp_room_image example_object_of_bytes
       example_destructor_returns (Some file) HotelManager_new
     = Returns (mkHotel {[7 := set_room_no 7 RoomData_default]} [DataLoaded] [])
  /\ load_data example_sizeof example_temp_room_image example_object_of_bytes
       example_destructor_returns (Some [x07]) HotelManager_new
     = Returns (mkHotel ∅ [DataLoaded] []).
Proof.
  cbv zeta. split_and!; vm_compute; reflexivity.
Qed.

(** In the example layout the file a run saves kills the next run: the
    strings of the image point into the run that wrote it. *)
Example example_own_file_aborts :
  let saved := (main example_sizeof example_object_bytes example_temp_room_image
                  example_object_of_bytes example_destructor_returns 93824992235520
                  None true [BookARoom 12 "Asha" "Pune" "98450" 4]).2 in
  exists out err,
    load_data example_sizeof example_temp_room_image example_object_of_bytes
      example_destructor_returns saved HotelManager_new
    = Aborted out err.
Proof. cbv zeta. do 2 eexists. vm_compute. reflexivity. Qed.

(** ** The invariant holds throughout a run of the program *)

(** Whatever the file holds and whatever the operator does, every record
    of the map sits under its own room number when the menu is left; the
    hypothesis [keyed_by_room_no] of the theorems above is met by every
    state the program reaches. *)
Lemma keyed_session (sz : nat) (temp_room_image : list byte)
    (object_of_bytes : list byte -> option RoomData)
    (destructor_returns : list byte -> bool)
    (file : option (list byte)) (actions : list Action) :
  returned (load_data sz temp_room_image object_of_bytes destructor_returns file
              HotelManager_new)
    (fun h0 => keyed_by_room_no (rooms_map (main_menu actions h0))).
Proof.
  pose proof (keyed_load_data sz temp_room_image object_of_bytes destructor_returns
                file HotelManager_new keyed_empty) as Hload.
  destruct (load_data _ _ _ _ file HotelManager_new) as [h0 | out err]; simpl in *;
    [| done].
  by apply keyed_main_menu.
Qed.

(** X1.  Whatever [Record.DAT] holds, whatever the operator does and
    whether or not the file can be written at exit, every record of the
    map the program ends with sits under its own room number. *)
Lemma keyed_main (heap : Type) (sz : nat)
    (object_bytes : heap -> Z -> RoomData -> list byte)
    (temp_room_image : list byte) (object_of_bytes : list byte -> option RoomData)
    (destructor_returns : list byte -> bool) (mem : heap)
    (file : option (list byte)) (writable : bool) (actions : list Action) :
  returned (main sz object_bytes temp_room_image object_of_bytes destructor_returns
              mem file writable actions).1
    (fun h => keyed_by_room_no (rooms_map h)).
Proof.
  unfold main.
  pose proof (keyed_load_data sz temp_room_image object_of_bytes destructor_returns
                file HotelManager_new keyed_empty) as Hload.
  destruct (load_data _ _ _ _ file HotelManager_new) as [h0 | out err]; simpl in *;
    [| done].
  unfold save_data. destruct writable; simpl; by apply keyed_main_menu.
Qed.

Lemma modify_customer_info_days (r_no : Z) (line : string) (d : Z) (h : HotelManager) :
  is_Some (rooms_map h !! r_no) ->
  modify_customer_info 4 r_no line d h = modify_days r_no d h.
Proof. intros [room E]. unfold modify_customer_info. by rewrite E. Qed.

(** ** The scenarios of the specification, run on the model *)

Example scenario_room_1 :
  let h1 := add_room 1 "Asha" "Pune" "98450" 3 HotelManager_new in
  let h2 := order_food 1 1 2 h1 in
  let h3 := order_food 3 1 1 h2 in
  let h4 := delete_customer_record 1 "y" h3 in
  rooms_map h1 !! 1 = Some (mkRoomData 1 "Asha" "Pune" "98450" 3 30000 "Deluxe" 0)
  /\ food_bill <$> rooms_map h2 !! 1 = Some 1000
  /\ food_bill <$> rooms_map h3 !! 1 = Some 2200
  /\ In (TotalBill 32200) (cout h4)
  /\ check_room_status 1 h4 = 0.
Proof.
  cbv zeta. split_and!; try (vm_compute; reflexivity).
  vm_compute. tauto.
Qed.

Example scenario_room_55 :
  let h1 := add_room 55 "Ravi" "Agra" "70001" 2 HotelManager_new in
  let h2 := modify_customer_info 4 55 "" 5 h1 in
  rooms_map h1 !! 55 = Some (mkRoomData 55 "Ravi" "Agra" "70001" 2 25000 "Executive" 0)
  /\ rooms_map h2 !! 55 = Some (mkRoomData 55 "Ravi" "Agra" "70001" 5 62500 "Executive" 0).
Proof. cbv zeta. split; vm_compute; reflexivity. Qed.

Example scenario_invalid_rooms :
  add_room 101 "Ravi" "Agra" "70001" 2 HotelManager_new = mkHotel ∅ [DoesNotExist 101] []
  /\ add_room 0 "Ravi" "Agra" "70001" 2 HotelManager_new
     = mkHotel ∅ [DoesNotExist 0] [].
Proof. split; reflexivity. Qed.

(** Beyond the range of a [long] the stored cost is the wrapped product,
    not the integer product: room 1 for 10^15 days. *)
Example cost_wraps_beyond_long :
  cost <$> rooms_map (add_room 1 "Asha" "Pune" "98450" 1000000000000000 HotelManager_new) !! 1
  = Some (-8446744073709551616).
Proof. vm_compute. reflexivity. Qed.

(** * Further properties of the code *)

(** ** The pricing invariant of a run without a file *)

Lemma store_ok_empty : store_ok ∅.
Proof. intros k room E. by rewrite lookup_empty in E. Qed.

Lemma store_ok_insert (rm : gmap Z RoomData) (k : Z) (room : RoomData) :
  store_ok rm -> room_no room = k -> well_priced room -> store_ok (<[k := room]> rm).
Proof.
  intros Hok Hno Hwp j r E. apply lookup_insert_Some in E as [[<- <-]|[_ E]]; eauto.
Qed.

Lemma store_ok_delete (rm : gmap Z RoomData) (k : Z) :
  store_ok rm -> store_ok (delete k rm).
Proof. intros Hok j r E. apply lookup_delete_Some in E as [_ E]. eauto. Qed.

Lemma store_ok_keyed (rm : gmap Z RoomData) : store_ok rm -> keyed_by_room_no rm.
Proof. intros Hok k room E. by destruct (Hok _ _ E). Qed.

Lemma store_ok_add_room (r_no : Z) (n a p : string) (d : Z) (h : HotelManager) :
  store_ok (rooms_map h) -> store_ok (rooms_map (add_room r_no n a p d h)).
Proof.
  intros Hok.
  destruct (check_room_status_cases r_no h) as [[E _]|[[E _]|[E [Hr _]]]].
  - by rewrite (add_room_invalid _ _ _ _ _ _ E).
  - by rewrite (add_room_booked _ _ _ _ _ _ E).
  - destruct (room_type_and_rate_valid r_no Hr) as [[_ B]|[[_ B]|[_ B]]];
      rewrite (add_room_vacant _ _ _ _ _ _ _ _ E B); simpl;
      (apply store_ok_insert; [done | done |]);
      unfold well_priced; simpl; rewrite (rate_of_band _ _ _ B);
      (split_and!; [lia | lia | done | done | long_consts; lia]).
Qed.

Lemma store_ok_modify_customer_info (ch r_no : Z) (line : string) (d : Z)
    (h : HotelManager) :
  store_ok (rooms_map h) -> store_ok (rooms_map (modify_customer_info ch r_no line d h)).
Proof.
  intros Hok. unfold modify_customer_info.
  destruct (rooms_map h !! r_no) as [room |] eqn:E; [| done].
  destruct (Hok _ _ E) as [Hno (Hr & Hband & Hcost & Hfood)].
  unfold modify_name, modify_address, modify_phone, modify_days. rewrite E.
  destruct (ch =? 1);
    [apply store_ok_insert; [done | done | by (unfold well_priced; simpl; split; [exact Hr | split_and!])] |].
  destruct (ch =? 2);
    [apply store_ok_insert; [done | done | by (unfold well_priced; simpl; split; [exact Hr | split_and!])] |].
  destruct (ch =? 3);
    [apply store_ok_insert; [done | done | by (unfold well_priced; simpl; split; [exact Hr | split_and!])] |].
  destruct (ch =? 4); [| done].
  cbv zeta. cbn [rooms_map print set_rooms].
  apply store_ok_insert; [done | by rewrite room_no_recalculate_cost |].
  rewrite (recalculate_cost_spec (set_days d room) _ _ Hband).
  by (unfold well_priced; simpl; split; [exact Hr | split_and!]).
Qed.

Lemma store_ok_order_food (m r_no n : Z) (h : HotelManager) :
  store_ok (rooms_map h) -> store_ok (rooms_map (order_food m r_no n h)).
Proof.
  intros Hok. unfold order_food.
  destruct (rooms_map h !! r_no) as [room |] eqn:E; [| done].
  destruct (Hok _ _ E) as [Hno (Hr & Hband & Hcost & Hfood)].
  cbv zeta. repeat case_match; simpl; try done;
    (apply store_ok_insert; [done | done |]);
    (unfold well_priced; simpl; split; [exact Hr |]; split_and!;
       [done | done | apply wrap_long_in_range]).
Qed.

Lemma store_ok_delete_customer_record (r_no : Z) (c : ascii) (h : HotelManager) :
  store_ok (rooms_map h) -> store_ok (rooms_map (delete_customer_record r_no c h)).
Proof.
  intros Hok. unfold delete_customer_record.
  destruct (rooms_map h !! r_no); [| done].
  cbv zeta. case_match; simpl; [by apply store_ok_delete | done].
Qed.

Lemma store_ok_run_action (a : Action) (h : HotelManager) :
  store_ok (rooms_map h) -> store_ok (rooms_map (run_action a h)).
Proof.
  intros Hok. destruct a; simpl;
    auto using store_ok_add_room, store_ok_modify_customer_info,
               store_ok_delete_customer_record, store_ok_order_food.
  - by rewrite rooms_map_display_room.
  - by rewrite rooms_map_display_all_rooms.
Qed.

Lemma store_ok_main_menu (actions : list Action) (h : HotelManager) :
  store_ok (rooms_map h) -> store_ok (rooms_map (main_menu actions h)).
Proof.
  unfold main_menu. simpl. revert h.
  induction actions as [| a actions IH]; intros h Hok; simpl; [done |].
  apply IH. by apply store_ok_run_action.
Qed.

(** X2.  In a run that starts without [Record.DAT], whatever the operator
    does, every record of the map the menu leaves is stored under its own
    room number, which is in 1..100, carries the room type of the band of
    that number, costs its days times the rate of the band (in [long]
    arithmetic) and has a food bill within the range of a [long]. *)
Theorem fresh_run_keeps_records_priced (sz : nat) (temp_room_image : list byte)
    (object_of_bytes : list byte -> option RoomData)
    (destructor_returns : list byte -> bool) (actions : list Action)
    (h0 : HotelManager) (k : Z) (room : RoomData) :
  load_data sz temp_room_image object_of_bytes destructor_returns None
    HotelManager_new
  = Returns h0 ->
  rooms_map (main_menu actions h0) !! k = Some room ->
  room_no room = k
  /\ 1 <= k <= 100
  /\ room_type_and_rate k = Some (rtype room, rate k)
  /\ cost room = Long.mul (days room) (rate k)
  /\ Long.in_range (food_bill room).
Proof.
  intros [= <-] E.
  assert (store_ok (rooms_map (main_menu actions (print NoRecordFile HotelManager_new))))
    as Hok by (apply store_ok_main_menu, store_ok_empty).
  destruct (Hok _ _ E) as [<- (Hr & Hband & Hcost & Hfood)]. done.
Qed.

Lemma fresh_run_keeps_records_priced_witness :
  let room := mkRoomData 55 "Ravi" "Agra" "70001" 5 62500 "Executive" 1200 in
  room_no room = 55
  /\ 1 <= 55 <= 100
  /\ room_type_and_rate 55 = Some (rtype room, rate 55)
  /\ cost room = Long.mul (days room) (rate 55)
  /\ Long.in_range (food_bill room).
Proof.
  intros room.
  apply (fresh_run_keeps_records_priced example_sizeof example_temp_room_image
           example_object_of_bytes example_destructor_returns
           [BookARoom 55 "Ravi" "Agra" "70001" 2; ModifyInformation 4 55 "" 5;
            OrderFood 3 55 1; CustomerInformation 55]
           (print NoRecordFile HotelManager_new) 55 room).
  - reflexivity.
  - vm_compute. reflexivity.
Defined.

(** X3.  In a run that starts without [Record.DAT] the map never holds
    more than 100 records, however many bookings the operator makes. *)
Theorem fresh_run_at_most_100_rooms (sz : nat) (temp_room_image : list byte)
    (object_of_bytes : list byte -> option RoomData)
    (destructor_returns : list byte -> bool) (actions : list Action) :
  returned (load_data sz temp_room_image object_of_bytes destructor_returns None
              HotelManager_new)
    (fun h0 => (size (rooms_map (main_menu actions h0)) <= 100)%nat).
Proof.
  simpl.
  set (rm := rooms_map (main_menu actions (print NoRecordFile HotelManager_new))).
  assert (store_ok rm) as Hok by (apply store_ok_main_menu, store_ok_empty).
  assert (dom rm ⊆ hotel_rooms) as Hsub.
  { intros k Hk. apply elem_of_dom in Hk as [room E].
    destruct (Hok _ _ E) as [<- (Hr & _)].
    unfold hotel_rooms. apply elem_of_list_to_set, elem_of_seqZ. lia. }
  apply subseteq_size in Hsub. rewrite size_dom in Hsub.
  unfold hotel_rooms in Hsub.
  rewrite size_list_to_set, length_seqZ in Hsub by apply NoDup_seqZ.
  exact Hsub.
Qed.

(** ** Booking, checkout and the set of booked rooms *)

(** X4.  Booking a vacant room and checking it out at once, with ['y'] or
    ['Y'], gives back the map as it was before the booking, and the room
    is vacant again. *)
Theorem book_then_checkout_restores (r_no : Z) (n a p : string) (d : Z)
    (confirm_char : ascii) (h : HotelManager) :
  is_vacant r_no h ->
  confirm_char = "y"%char \/ confirm_char = "Y"%char ->
  rooms_map (delete_customer_record r_no confirm_char (add_room r_no n a p d h))
  = rooms_map h
  /\ is_vacant r_no (delete_customer_record r_no confirm_char (add_room r_no n a p d h)).
Proof.
  intros Hv Hc.
  destruct (is_vacant_inv _ _ Hv) as [Hr Hnone].
  assert (rooms_map (delete_customer_record r_no confirm_char (add_room r_no n a p d h))
          = rooms_map h) as Hmap.
  { destruct (room_type_and_rate_valid r_no Hr) as [[_ B]|[[_ B]|[_ B]]];
      rewrite (add_room_vacant _ _ _ _ _ _ _ _ Hv B);
      unfold delete_customer_record; simpl; rewrite lookup_insert_eq; cbv zeta;
      (destruct Hc as [-> | ->]; simpl; by apply delete_insert_id). }
  split; [exact Hmap |].
  unfold is_vacant, check_room_status in *. rewrite Hmap. exact Hv.
Qed.

Lemma book_then_checkout_restores_witness :
  let h := add_room 12 "Asha" "Pune" "98450" 4 HotelManager_new in
  rooms_map (delete_customer_record 90 "Y" (add_room 90 "Ravi" "Agra" "70001" 2 h))
  = rooms_map h
  /\ is_vacant 90 (delete_customer_record 90 "Y" (add_room 90 "Ravi" "Agra" "70001" 2 h)).
Proof.
  intros h. apply (book_then_checkout_restores 90 "Ravi" "Agra" "70001" 2 "Y" h).
  - vm_compute. reflexivity.
  - by right.
Defined.

(** X5.  A room number that has no record is refused by every method
    that works on a record: showing it, editing it (whatever the field
    chosen), checking it out (whatever the answer) and ordering food for
    it (whatever the meal and the number of people) each print that the
    room is vacant or does not exist and leave the map as it was. *)
Theorem missing_room_is_refused (r_no : Z) (h : HotelManager) :
  rooms_map h !! r_no = None ->
  display_room r_no h = print (VacantOrMissing r_no) h
  /\ (forall ch line d,
        modify_customer_info ch r_no line d h = print (VacantOrMissing r_no) h)
  /\ (forall confirm_char,
        delete_customer_record r_no confirm_char h = print (VacantOrMissing r_no) h)
  /\ (forall meal_choice num_people,
        order_food meal_choice r_no num_people h = print (VacantOrMissing r_no) h)
  /\ rooms_map (print (VacantOrMissing r_no) h) = rooms_map h.
Proof.
  intros E.
  unfold display_room, modify_customer_info, delete_customer_record, order_food.
  rewrite E. by split_and!.
Qed.

Lemma missing_room_is_refused_witness :
  let h := add_room 12 "Asha" "Pune" "98450" 4 HotelManager_new in
  display_room 13 h = print (VacantOrMissing 13) h
  /\ (forall ch line d,
        modify_customer_info ch 13 line d h = print (VacantOrMissing 13) h)
  /\ (forall confirm_char,
        delete_customer_record 13 confirm_char h = print (VacantOrMissing 13) h)
  /\ (forall meal_choice num_people,
        order_food meal_choice 13 num_people h = print (VacantOrMissing 13) h)
  /\ rooms_map (print (VacantOrMissing 13) h) = rooms_map h.
Proof.
  intros h. apply (missing_room_is_refused 13 h). vm_compute. reflexivity.
Defined.

Lemma room_no_price_new_room (room : RoomData) :
  room_no (price_new_room room) = room_no room.
Proof. unfold price_new_room. by repeat case_match. Qed.

Lemma dom_modify_customer_info (ch r_no : Z) (line : string) (d : Z) (h : HotelManager) :
  dom (rooms_map (modify_customer_info ch r_no line d h)) = dom (rooms_map h).
Proof.
  unfold modify_customer_info.
  destruct (rooms_map h !! r_no) as [room |] eqn:E; [| done].
  unfold modify_name, modify_address, modify_phone, modify_days. rewrite E.
  repeat case_match; cbn [rooms_map print set_rooms]; try done;
    by apply dom_insert_lookup_L.
Qed.

Lemma dom_order_food (m r_no n : Z) (h : HotelManager) :
  dom (rooms_map (order_food m r_no n h)) = dom (rooms_map h).
Proof.
  unfold order_food.
  destruct (rooms_map h !! r_no) as [room |] eqn:E; [| done].
  cbv zeta. repeat case_match; cbn [rooms_map print set_rooms]; try done;
    by apply dom_insert_lookup_L.
Qed.

(** X6.  Only a booking adds a room to the map and only a checkout takes
    one away: [add_room] keeps every booked room and adds at most the
    room asked for, [delete_customer_record] adds none and removes at most
    the room asked for, and every other action of the menus (showing,
    listing, editing, ordering food, a wrong choice) leaves the set of
    booked rooms as it was. *)
Theorem only_booking_and_checkout_change_rooms (a : Action) (h : HotelManager) :
  match a with
  | BookARoom r_no _ _ _ _ =>
      dom (rooms_map h) ⊆ dom (rooms_map (run_action a h))
      /\ dom (rooms_map (run_action a h)) ⊆ {[r_no]} ∪ dom (rooms_map h)
  | CheckOut r_no _ =>
      dom (rooms_map (run_action a h)) ⊆ dom (rooms_map h)
      /\ dom (rooms_map h) ⊆ {[r_no]} ∪ dom (rooms_map (run_action a h))
  | _ => dom (rooms_map (run_action a h)) = dom (rooms_map h)
  end.
Proof.
  destruct a as [r_no n a p d | r_no | | ch r_no line d | r_no c | | m r_no n |]; simpl.
  - unfold add_room. cbv zeta.
    destruct (check_room_status r_no h =? 1); [set_solver |].
    destruct (check_room_status r_no h =? 2); [set_solver |].
    simpl. rewrite dom_insert_L, room_no_price_new_room. simpl. set_solver.
  - by rewrite rooms_map_display_room.
  - by rewrite rooms_map_display_all_rooms.
  - apply dom_modify_customer_info.
  - unfold delete_customer_record.
    destruct (rooms_map h !! r_no); [| set_solver].
    cbv zeta. case_match; simpl; [| set_solver].
    rewrite dom_delete_L. split.
    + intros k [Hk _]%elem_of_difference. exact Hk.
    + intros k Hk. destruct (decide (k = r_no)) as [-> | Hne].
      * by apply elem_of_union_l, elem_of_singleton.
      * apply elem_of_union_r, elem_of_difference.
        split; [exact Hk | by rewrite elem_of_singleton].
  - done.
  - apply dom_order_food.
  - done.
Qed.

(** X7.  A booking that goes through stores the record exactly as typed:
    the room number, the name, the address and the phone as read (empty
    strings included), the days as read, the type and the cost of the
    band, and a food bill of 0; the record of every other room is left as
    it was, and the booking is announced with the room and the name. *)
Theorem add_room_stores_what_was_typed (r_no : Z) (n a p : string) (d : Z)
    (h : HotelManager) :
  is_vacant r_no h ->
  exists (t : string) (per_day : Z),
    room_type_and_rate r_no = Some (t, per_day)
    /\ rooms_map (add_room r_no n a p d h) !! r_no
       = Some (mkRoomData r_no n a p d (Long.mul d per_day) t 0)
    /\ (forall k, k <> r_no ->
          rooms_map (add_room r_no n a p d h) !! k = rooms_map h !! k)
    /\ cout (add_room r_no n a p d h) = cout h ++ [Booked r_no n].
Proof.
  intros Hv. destruct (is_vacant_inv _ _ Hv) as [Hr _].
  destruct (room_type_and_rate_valid r_no Hr) as [[_ B]|[[_ B]|[_ B]]];
    eexists _, _; (split; [exact B |]);
    rewrite (add_room_vacant _ _ _ _ _ _ _ _ Hv B); simpl;
    (split_and!; [apply lookup_insert_eq | | done]);
    intros k Hk; by rewrite lookup_insert_ne.
Qed.

Lemma add_room_stores_what_was_typed_witness :
  let h := add_room 12 "Asha" "Pune" "98450" 4 HotelManager_new in
  exists (t : string) (per_day : Z),
    room_type_and_rate 81 = Some (t, per_day)
    /\ rooms_map (add_room 81 "" "Agra" "" 2 h) !! 81
       = Some (mkRoomData 81 "" "Agra" "" 2 (Long.mul 2 per_day) t 0)
    /\ (forall k, k <> 81 ->
          rooms_map (add_room 81 "" "Agra" "" 2 h) !! k = rooms_map h !! k)
    /\ cout (add_room 81 "" "Agra" "" 2 h) = cout h ++ [Booked 81 ""].
Proof.
  intros h. apply (add_room_stores_what_was_typed 81 "" "Agra" "" 2 h).
  vm_compute. reflexivity.
Defined.

(** ** Food orders, one at a time *)

Lemma meal_charge_exact (m : Meal) (n : Z) :
  int_range n -> Long.mul (meal_rate m) n = n * meal_rate m.
Proof.
  intros Hn. rewrite Z.mul_comm. apply long_mul_exact.
  unfold int_range in Hn. change (2 ^ 31) with 2147483648 in Hn.
  destruct m; long_consts; simpl; lia.
Qed.

Lemma order_food_charge (m : Meal) (r_no n : Z) (h : HotelManager) (room : RoomData) :
  rooms_map h !! r_no = Some room ->
  order_food (meal_choice_of m) r_no n h
  = mkHotel
      (<[r_no := set_food_bill
                   (Long.add (food_bill room) (Long.mul (meal_rate m) n)) room]>
         (rooms_map h))
      (cout h ++ [FoodAdded (Long.mul (meal_rate m) n) (meal_word m)]) (cerr h).
Proof.
  intros E. unfold order_food. rewrite E. by destruct m.
Qed.

(** X8.  One food order for a room that has a record, for a meal of the
    menu and a number of people that is an [int]: the charge is exactly
    [num_people * meal_rate], with no overflow; it is announced with the
    meal, and it is added to the food bill of that record (in [long]
    arithmetic, exactly when the sum fits); no other field of the record
    and no other record changes. *)
Theorem order_food_adds_exact_charge (m : Meal) (r_no num_people : Z)
    (h : HotelManager) (room : RoomData) :
  rooms_map h !! r_no = Some room ->
  int_range num_people ->
  let h' := order_food (meal_choice_of m) r_no num_people h in
  cout h' = cout h ++ [FoodAdded (num_people * meal_rate m) (meal_word m)]
  /\ rooms_map h' !! r_no
     = Some (set_food_bill (Long.add (food_bill room) (num_people * meal_rate m)) room)
  /\ (Long.in_range (food_bill room + num_people * meal_rate m) ->
      rooms_map h' !! r_no
      = Some (set_food_bill (food_bill room + num_people * meal_rate m) room))
  /\ (forall k, k <> r_no -> rooms_map h' !! k = rooms_map h !! k).
Proof.
  intros E Hn h'. subst h'.
  rewrite (order_food_charge _ _ _ _ _ E), (meal_charge_exact _ _ Hn). simpl.
  rewrite lookup_insert_eq. split_and!; try done.
  - intros Hfit. by rewrite (long_add_exact _ _ Hfit).
  - intros k Hk. by rewrite lookup_insert_ne.
Qed.

Lemma order_food_adds_exact_charge_witness :
  let h := add_room 12 "Asha" "Pune" "98450" 4 HotelManager_new in
  let room := mkRoomData 12 "Asha" "Pune" "98450" 4 40000 "Deluxe" 0 in
  let h' := order_food (meal_choice_of Lunch) 12 3 h in
  cout h' = cout h ++ [FoodAdded (3 * meal_rate Lunch) (meal_word Lunch)]
  /\ rooms_map h' !! 12
     = Some (set_food_bill (Long.add (food_bill room) (3 * meal_rate Lunch)) room)
  /\ (Long.in_range (food_bill room + 3 * meal_rate Lunch) ->
      rooms_map h' !! 12
      = Some (set_food_bill (food_bill room + 3 * meal_rate Lunch) room))
  /\ (forall k, k <> 12 -> rooms_map h' !! k = rooms_map h !! k).
Proof.
  intros h room.
  apply (order_food_adds_exact_charge Lunch 12 3 h room).
  - vm_compute. reflexivity.
  - vm_compute. split; discriminate.
Defined.

(** X9.  A food order for zero people is accepted and charges nothing:
    for a room whose record has a food bill within the range of a [long],
    the map after the order is the map before it, and a charge of 0 is
    announced. *)
Theorem order_food_for_nobody (m : Meal) (r_no : Z) (h : HotelManager)
    (room : RoomData) :
  rooms_map h !! r_no = Some room ->
  Long.in_range (food_bill room) ->
  rooms_map (order_food (meal_choice_of m) r_no 0 h) = rooms_map h
  /\ cout (order_food (meal_choice_of m) r_no 0 h)
     = cout h ++ [FoodAdded 0 (meal_word m)].
Proof.
  intros E Hfit.
  rewrite (order_food_charge _ _ _ _ _ E). simpl.
  assert (Long.mul (meal_rate m) 0 = 0) as ->
    by (unfold Long.mul; rewrite Z.mul_0_r; apply wrap_long_small; long_consts; lia).
  unfold Long.add. rewrite Z.add_0_r, (wrap_long_small _ Hfit).
  split; [| done]. apply insert_id. rewrite E. by destruct room.
Qed.

Lemma order_food_for_nobody_witness :
  let h := order_food 1 12 2 (add_room 12 "Asha" "Pune" "98450" 4 HotelManager_new) in
  rooms_map (order_food (meal_choice_of Dinner) 12 0 h) = rooms_map h
  /\ cout (order_food (meal_choice_of Dinner) 12 0 h)
     = cout h ++ [FoodAdded 0 (meal_word Dinner)].
Proof.
  intros h.
  apply (order_food_for_nobody Dinner 12 h
           (mkRoomData 12 "Asha" "Pune" "98450" 4 40000 "Deluxe" 1000)).
  - vm_compute. reflexivity.
  - vm_compute. split; discriminate.
Defined.

(** ** Editing *)

(** X10.  The edit menu stores what was typed in the field chosen: for a
    room that has a record, choice 1 puts the line read in the name,
    choice 2 in the address and choice 3 in the phone (an empty line
    included) and reports it; a choice below 1 or above 4 changes nothing
    and is reported as a wrong choice. *)
Theorem modify_customer_info_sets_chosen_field (ch r_no : Z) (line : string) (d : Z)
    (h : HotelManager) (room : RoomData) :
  rooms_map h !! r_no = Some room ->
  let h' := modify_customer_info ch r_no line d h in
  (ch = 1 -> rooms_map h' !! r_no = Some (set_name line room)
             /\ cout h' = cout h ++ [NameModified])
  /\ (ch = 2 -> rooms_map h' !! r_no = Some (set_address line room)
                /\ cout h' = cout h ++ [AddressModified])
  /\ (ch = 3 -> rooms_map h' !! r_no = Some (set_phone line room)
                /\ cout h' = cout h ++ [PhoneModified])
  /\ (ch < 1 \/ 4 < ch -> h' = print WrongChoice h).
Proof.
  intros E h'. subst h'. unfold modify_customer_info. rewrite E.
  split_and!.
  - intros ->. unfold modify_name. rewrite E. simpl. by rewrite lookup_insert_eq.
  - intros ->. unfold modify_address. rewrite E. simpl. by rewrite lookup_insert_eq.
  - intros ->. unfold modify_phone. rewrite E. simpl. by rewrite lookup_insert_eq.
  - intros Hch. zbool; try lia. done.
Qed.

Lemma modify_customer_info_sets_chosen_field_witness :
  let h := add_room 12 "Asha" "Pune" "98450" 4 HotelManager_new in
  let room := mkRoomData 12 "Asha" "Pune" "98450" 4 40000 "Deluxe" 0 in
  let h' := modify_customer_info 3 12 "" 0 h in
  (3 = 1 -> rooms_map h' !! 12 = Some (set_name "" room)
            /\ cout h' = cout h ++ [NameModified])
  /\ (3 = 2 -> rooms_map h' !! 12 = Some (set_address "" room)
               /\ cout h' = cout h ++ [AddressModified])
  /\ (3 = 3 -> rooms_map h' !! 12 = Some (set_phone "" room)
               /\ cout h' = cout h ++ [PhoneModified])
  /\ (3 < 1 \/ 4 < 3 -> h' = print WrongChoice h).
Proof.
  intros h room.
  apply (modify_customer_info_sets_chosen_field 3 12 "" 0 h room).
  vm_compute. reflexivity.
Defined.

(** X11.  [modify_days] recalculates the cost only inside the three
    bands: for a record whose own room number is below 1 or above 100
    (one that [load_data] read from the file; [add_room] never makes
    one) the days become the number read and the cost stays what it was. *)
Theorem modify_days_outside_bands_keeps_cost (r_no d : Z) (line : string)
    (h : HotelManager) (room : RoomData) :
  rooms_map h !! r_no = Some room ->
  room_no room < 1 \/ 100 < room_no room ->
  modify_customer_info 4 r_no line d h = modify_days r_no d h
  /\ rooms_map (modify_days r_no d h) !! r_no = Some (set_days d room)
  /\ cost (set_days d room) = cost room
  /\ cout (modify_days r_no d h) = cout h ++ [InfoModified].
Proof.
  intros E Hout. split; [apply modify_customer_info_days; by eexists |].
  rewrite (modify_days_found _ _ _ _ E). simpl. rewrite lookup_insert_eq.
  split_and!; try done. f_equal.
  unfold recalculate_cost. simpl. zbool; try lia; done.
Qed.

Lemma modify_days_outside_bands_keeps_cost_witness :
  let room := mkRoomData 200 "" "" "" 2 30000 "" 0 in
  let h := mkHotel {[200 := room]} [DataLoaded] [] in
  load_data example_sizeof example_temp_room_image example_object_of_bytes
    example_destructor_returns (Some (example_plain_image 200 2 30000 0))
    HotelManager_new
  = Returns h
  /\ modify_customer_info 4 200 "" 9 h = modify_days 200 9 h
  /\ rooms_map (modify_days 200 9 h) !! 200 = Some (set_days 9 room)
  /\ cost (set_days 9 room) = cost room
  /\ cout (modify_days 200 9 h) = cout h ++ [InfoModified].
Proof.
  intros room h. split; [vm_compute; reflexivity |].
  apply (modify_days_outside_bands_keeps_cost 200 9 "" h room).
  - vm_compute. reflexivity.
  - right. vm_compute. reflexivity.
Defined.

(** ** Listing *)

(** X12.  Showing and listing never change the map.  [display_room]
    shows the record found with the grand total [cost + food_bill];
    [display_all_rooms] prints the notice that no room is allotted when
    the map is empty, and otherwise one row per record, no more and no
    fewer, each with the total of its record. *)
Theorem displays_list_every_record (h : HotelManager) :
  rooms_map (display_all_rooms h) = rooms_map h
  /\ (forall r_no, rooms_map (display_room r_no h) = rooms_map h)
  /\ (forall r_no room,
        rooms_map h !! r_no = Some room ->
        cout (display_room r_no h)
        = cout h ++ [CustomerDetails room (Long.add (cost room) (food_bill room))])
  /\ (rooms_map h = ∅ -> cout (display_all_rooms h) = cout h ++ [NoRooms])
  /\ (rooms_map h <> ∅ ->
      exists rows : list Msg,
        cout (display_all_rooms h) = cout h ++ rows
        /\ length rows = size (rooms_map h)
        /\ forall k room,
             rooms_map h !! k = Some room ->
             In (RoomRow room (Long.add (cost room) (food_bill room))) rows).
Proof.
  split_and!.
  - apply rooms_map_display_all_rooms.
  - intros r_no. apply rooms_map_display_room.
  - intros r_no room E. unfold display_room. by rewrite E.
  - intros E. unfold display_all_rooms. by rewrite decide_True.
  - intros Hne. unfold display_all_rooms. rewrite decide_False by done.
    eexists. split; [reflexivity |]. split.
    + by rewrite length_map, length_map_to_list.
    + intros k room E. apply in_map_iff. exists (k, room). split; [done |].
      apply list_elem_of_In. by apply elem_of_map_to_list.
Qed.

(** ** Saving and loading *)

Lemma length_saved_images {heap : Type} (sz : nat)
    (object_bytes : heap -> Z -> RoomData -> list byte) (mem : heap)
    (rm : gmap Z RoomData) :
  (forall k room, length (object_bytes mem k room) = sz) ->
  length (concat (map (fun kv : Z * RoomData => object_bytes mem kv.1 kv.2)
                      (map_to_list rm)))
  = (size rm * sz)%nat.
Proof.
  intros Hwidth. rewrite <- length_map_to_list.
  induction (map_to_list rm) as [| kv l IH]; simpl; [done |].
  rewrite length_app, IH, Hwidth. lia.
Qed.

Lemma cerr_run_action (a : Action) (h : HotelManager) : cerr (run_action a h) = cerr h.
Proof.
  destruct a; simpl;
    unfold add_room, display_room, display_all_rooms, modify_customer_info,
           modify_name, modify_address, modify_phone, modify_days,
           delete_customer_record, order_food;
    cbv zeta; repeat case_match; done.
Qed.

Lemma saved_image_aligned {heap : Type} (sz : nat)
    (object_bytes : heap -> Z -> RoomData -> list byte) (mem : heap)
    (l : list (Z * RoomData)) (k : Z) (room : RoomData) :
  (forall k room, length (object_bytes mem k room) = sz) ->
  (k, room) ∈ l ->
  exists (pre post : list byte) (i : nat),
    concat (map (fun kv : Z * RoomData => object_bytes mem kv.1 kv.2) l)
    = pre ++ object_bytes mem k room ++ post
    /\ length pre = (i * sz)%nat.
Proof.
  intros Hwidth. induction l as [| kv l IH]; intros Hin; [by apply elem_of_nil in Hin |].
  apply elem_of_cons in Hin as [<- | Hin].
  - exists [], (concat (map (fun kv : Z * RoomData => object_bytes mem kv.1 kv.2) l)), 0%nat.
    done.
  - destruct (IH Hin) as (pre & post & i & E & Hpre).
    exists (object_bytes mem kv.1 kv.2 ++ pre), post, (S i).
    simpl. rewrite E, length_app, Hwidth, Hpre, <- app_assoc. split; [done | lia].
Qed.

(** X13.  What a run leaves on disk.  When the load kills the process,
    [Record.DAT] is left as it was.  Otherwise [save_data] runs at exit
    on the state the menu left.  If the file cannot be opened for writing
    it is left as it was and the error goes to [std::cerr], nothing to
    [std::cout].  If it can, the save is reported on [std::cout] and the
    file is replaced (not appended to) by one image per record: with
    images of [sizeof] bytes its length is the number of records of the
    final map times [sizeof], zero bytes for an empty map, and the image
    of every record of the map starts in it at a multiple of [sizeof]. *)
Theorem save_data_replaces_file (heap : Type) (sz : nat)
    (object_bytes : heap -> Z -> RoomData -> list byte)
    (temp_room_image : list byte) (object_of_bytes : list byte -> option RoomData)
    (destructor_returns : list byte -> bool) (mem : heap)
    (file : option (list byte)) (writable : bool) (actions : list Action) :
  (forall k room, length (object_bytes mem k room) = sz) ->
  let result := main sz object_bytes temp_room_image object_of_bytes
                  destructor_returns mem file writable actions in
  match load_data sz temp_room_image object_of_bytes destructor_returns file
          HotelManager_new with
  | Aborted out err => result = (Aborted out err, file)
  | Returns h0 =>
      let h1 := main_menu actions h0 in
      if writable then
        exists s : list byte,
          result = (Returns (mkHotel (rooms_map h1) (cout h1 ++ [DataSaved]) (cerr h1)),
                    Some s)
          /\ length s = (size (rooms_map h1) * sz)%nat
          /\ (forall k room,
                 rooms_map h1 !! k = Some room ->
                 exists (pre post : list byte) (i : nat),
                   s = pre ++ object_bytes mem k room ++ post
                   /\ length pre = (i * sz)%nat)
      else
        result = (Returns (mkHotel (rooms_map h1) (cout h1) (cerr h1 ++ [SaveError])),
                  file)
  end.
Proof.
  intros Hwidth result. subst result. unfold main.
  destruct (load_data sz temp_room_image object_of_bytes destructor_returns file
              HotelManager_new) as [h0 | out err]; [| reflexivity].
  cbv zeta. unfold save_data. destruct writable; simpl; [| done].
  eexists. split; [reflexivity |]. split; [by apply length_saved_images |].
  intros k room E. apply saved_image_aligned; [done |].
  by apply elem_of_map_to_list.
Qed.

Lemma save_data_replaces_file_witness :
  let actions := [BookARoom 12 "Asha" "Pune" "98450" 4;
                  BookARoom 90 "Maharaja Sawai Man Singh" "Agra" "70001" 2] in
  let result := main example_sizeof example_object_bytes example_temp_room_image
                  example_object_of_bytes example_destructor_returns 93824992235520
                  (Some [x01; x02; x03]) true actions in
  match load_data example_sizeof example_temp_room_image example_object_of_bytes
          example_destructor_returns (Some [x01; x02; x03]) HotelManager_new with
  | Aborted out err => result = (Aborted out err, Some [x01; x02; x03])
  | Returns h0 =>
      let h1 := main_menu actions h0 in
      if true then
        exists s : list byte,
          result = (Returns (mkHotel (rooms_map h1) (cout h1 ++ [DataSaved]) (cerr h1)),
                    Some s)
          /\ length s = (size (rooms_map h1) * example_sizeof)%nat
          /\ (forall k room,
                 rooms_map h1 !! k = Some room ->
                 exists (pre post : list byte) (i : nat),
                   s = pre ++ example_object_bytes 93824992235520 k room ++ post
                   /\ length pre = (i * example_sizeof)%nat)
      else
        result = (Returns (mkHotel (rooms_map h1) (cout h1) (cerr h1 ++ [SaveError])),
                  Some [x01; x02; x03])
  end.
Proof.
  intros actions.
  apply (save_data_replaces_file Z example_sizeof example_object_bytes
           example_temp_room_image example_object_of_bytes example_destructor_returns
           93824992235520 (Some [x01; x02; x03]) true actions).
  intros k room. apply length_example_object_bytes.
Defined.

Lemma insert_images_app (object_of_bytes : list byte -> option RoomData)
    (images1 images2 : list (list byte)) (rm : gmap Z RoomData) :
  insert_images object_of_bytes (images1 ++ images2) rm
  = insert_images object_of_bytes images2 (insert_images object_of_bytes images1 rm).
Proof. unfold insert_images. apply fold_left_app. Qed.

(** X14.  When two images of the file carry the same room number the
    later one wins: when the copy of every whole image goes through and
    the destruction of [temp_room] too, the load returns, and the record
    of the last whole image of the stream is the record found under its
    room number in the map, whatever came before it and whatever partial
    bytes follow. *)
Theorem load_data_last_image_wins (sz : nat) (temp_room_image : list byte)
    (object_of_bytes : list byte -> option RoomData)
    (destructor_returns : list byte -> bool)
    (images : list (list byte)) (image tail : list byte) (h : HotelManager)
    (room : RoomData) :
  (0 < sz)%nat ->
  Forall (fun i => length i = sz) images ->
  length image = sz ->
  (length tail < sz)%nat ->
  Forall (fun i => is_Some (object_of_bytes i)) images ->
  object_of_bytes image = Some room ->
  destructor_returns (temp_room_after temp_room_image (images ++ [image]) tail) = true ->
  exists h',
    load_data sz temp_room_image object_of_bytes destructor_returns
      (Some (concat images ++ image ++ tail)) h
    = Returns h'
    /\ rooms_map h' !! room_no room = Some room.
Proof.
  intros Hsz Himg Hlen Htail Hdec Hroom Hdtor.
  replace (concat images ++ image ++ tail) with (concat (images ++ [image]) ++ tail)
    by (rewrite concat_app; simpl; by rewrite app_nil_r, <- app_assoc).
  rewrite (load_data_images sz temp_room_image object_of_bytes destructor_returns Hsz);
    [| apply Forall_app; split; [done | by constructor] | done
     | apply Forall_app; split; [done | constructor; [by eexists | done]]].
  rewrite Hdtor. eexists. split; [reflexivity |]. simpl.
  rewrite insert_images_app. simpl. rewrite Hroom. apply lookup_insert_eq.
Qed.

Lemma load_data_last_image_wins_witness :
  let room := mkRoomData 7 "" "" "" 5 50000 "" 500 in
  exists h',
    load_data example_sizeof example_temp_room_image example_object_of_bytes
      example_destructor_returns
      (Some (concat [example_plain_image 7 2 20000 0]
               ++ example_plain_image 7 5 50000 500 ++ [x09]))
      HotelManager_new
    = Returns h'
    /\ rooms_map h' !! room_no room = Some room.
Proof.
  intros room.
  apply (load_data_last_image_wins example_sizeof example_temp_room_image
           example_object_of_bytes example_destructor_returns
           [example_plain_image 7 2 20000 0] (example_plain_image 7 5 50000 500)
           [x09] HotelManager_new room).
  - unfold example_sizeof. lia.
  - repeat constructor.
  - reflexivity.
  - unfold example_sizeof. simpl. lia.
  - repeat constructor. vm_compute. by eexists.
  - vm_compute. reflexivity.
  - vm_compute. reflexivity.
Defined.

(** X15.  [load_data] never makes more records than the file has whole
    images: when a load into a new manager returns, the number of
    records times [sizeof] is at most the length of the file; a file
    shorter than one image loads nothing. *)
Theorem load_data_at_most_one_record_per_image (sz : nat) (temp_room_image : list byte)
    (object_of_bytes : list byte -> option RoomData)
    (destructor_returns : list byte -> bool) (s : list byte) :
  (0 < sz)%nat ->
  returned (load_data sz temp_room_image object_of_bytes destructor_returns (Some s)
              HotelManager_new)
    (fun h => (size (rooms_map h) * sz <= length s)%nat
              /\ ((length s < sz)%nat -> rooms_map h = ∅)).
Proof.
  intros Hsz. unfold load_data.
  destruct (read_records sz object_of_bytes (length s) s temp_room_image
              (rooms_map HotelManager_new)) as [rm t |] eqn:E; simpl; [| done].
  destruct (destructor_returns t); simpl; [| done].
  split.
  - apply (size_read_records sz object_of_bytes Hsz) in E.
    simpl in E. rewrite map_size_empty in E. exact E.
  - intros Hshort. rewrite read_records_short in E by done. by injection E as <- _.
Qed.

Lemma load_data_at_most_one_record_per_image_witness :
  let s := example_plain_image 7 3 30000 0 ++ example_plain_image 8 1 10000 0 ++ [x09] in
  load_data example_sizeof example_temp_room_image example_object_of_bytes
    example_destructor_returns (Some s) HotelManager_new
  = Returns (mkHotel {[7 := mkRoomData 7 "" "" "" 3 30000 "" 0;
                       8 := mkRoomData 8 "" "" "" 1 10000 "" 0]} [DataLoaded] [])
  /\ returned (load_data example_sizeof example_temp_room_image example_object_of_bytes
                 example_destructor_returns (Some s) HotelManager_new)
       (fun h => (size (rooms_map h) * example_sizeof <= length s)%nat
                 /\ ((length s < example_sizeof)%nat -> rooms_map h = ∅)).
Proof.
  intros s. split; [vm_compute; reflexivity |].
  apply (load_data_at_most_one_record_per_image example_sizeof example_temp_room_image
           example_object_of_bytes example_destructor_returns s).
  unfold example_sizeof. lia.
Defined.

(** ** How operations compose *)

Lemma recalculate_cost_set_days (d1 d2 : Z) (room : RoomData) :
  recalculate_cost (set_days d2 (recalculate_cost (set_days d1 room)))
  = recalculate_cost (set_days d2 room).
Proof.
  unfold recalculate_cost. simpl.
  destruct ((room_no room >=? 1) && (room_no room <=? 50)) eqn:B1; simpl;
    [by rewrite B1 |].
  destruct ((room_no room >=? 51) && (room_no room <=? 80)) eqn:B2; simpl;
    [by rewrite B1, B2 |].
  destruct ((room_no room >=? 81) && (room_no room <=? 100)) eqn:B3; simpl;
    by rewrite B1, B2, B3.
Qed.

(** X17.  A change of the length of stay overrides the one before it: two
    changes in a row leave the map that the second alone would leave, so
    the days and the cost of a record depend on the last number of days
    only, for every room number and every pair of values. *)
Theorem modify_days_last_change_wins (r_no d1 d2 : Z) (h : HotelManager) :
  rooms_map (modify_days r_no d2 (modify_days r_no d1 h))
  = rooms_map (modify_days r_no d2 h).
Proof.
  unfold modify_days at 2 3.
  destruct (rooms_map h !! r_no) as [room |] eqn:E.
  - cbv zeta. unfold modify_days. cbn [rooms_map print set_rooms].
    rewrite lookup_insert_eq. cbn [rooms_map print set_rooms].
    by rewrite insert_insert_eq, recalculate_cost_set_days.
  - unfold modify_days. cbn [rooms_map print]. by rewrite E.
Qed.

Lemma meal_total_Permutation (orders1 orders2 : list (Meal * Z)) :
  Permutation orders1 orders2 -> meal_total orders1 = meal_total orders2.
Proof.
  induction 1 as [| o l1 l2 _ IH | o1 o2 l | l1 l2 l3 _ IH1 _ IH2]; simpl; lia.
Qed.

(** X18.  The order in which meals are ordered does not matter: two runs
    of orders for the same room that are rearrangements of one another
    leave the same map, hence the same food bill, wrap-around included. *)
Theorem order_meals_any_order (r_no : Z) (orders1 orders2 : list (Meal * Z))
    (h : HotelManager) (room : RoomData) :
  rooms_map h !! r_no = Some room ->
  Long.in_range (food_bill room) ->
  Permutation orders1 orders2 ->
  rooms_map (order_meals r_no orders1 h) = rooms_map (order_meals r_no orders2 h).
Proof.
  intros E Hfit Hperm.
  rewrite !(order_meals_record _ _ _ _ E Hfit).
  by rewrite (meal_total_Permutation _ _ Hperm).
Qed.

Lemma order_meals_any_order_witness :
  let h := add_room 12 "Asha" "Pune" "98450" 4 HotelManager_new in
  rooms_map (order_meals 12 [(Breakfast, 2); (Dinner, 1)] h)
  = rooms_map (order_meals 12 [(Dinner, 1); (Breakfast, 2)] h).
Proof.
  intros h.
  apply (order_meals_any_order 12 [(Breakfast, 2); (Dinner, 1)]
           [(Dinner, 1); (Breakfast, 2)] h
           (mkRoomData 12 "Asha" "Pune" "98450" 4 40000 "Deluxe" 0)).
  - vm_compute. reflexivity.
  - vm_compute. split; discriminate.
  - apply perm_swap.
Defined.
